(** * WinPath validation harness: [scripts/validate_paths.py]

    A shallow embedding of the [PathValidator] class and of [main].

    The harness is sequential, effectful Python.  Its effects are
      - mutation of the [self.test_results] dictionary,
      - lines printed on standard output,
      - [subprocess.run] of [cargo],
      - readings of the wall clock, and
      - the filesystem (existence tests, one [mkdir], one file written).
    They are modelled by explicit state passing: a record [state] holds the
    validator object together with the part of the outside world it touches,
    and an oracle [env] answers what the outside world decides (what a cargo
    invocation returns and does to the filesystem, what the clock reads).
    Python exceptions of class [Exception] are modelled by an error layer in
    the monad [M].  Operator interrupts ([KeyboardInterrupt]) are
    asynchronous and may arrive between any two instructions; they are not
    part of this sequential model. *)

From Stdlib Require Import ZArith String List Bool Lia.
From stdpp Require Import base option list strings gmap pretty.

Set Warnings "-register-all".

Open Scope Z_scope.
Open Scope string_scope.

(** ** Data *)

(** A [pathlib.Path], as the list of its components below the root. *)
Definition path := list string.

(** [Path.parent] *)
Definition parent (p : path) : path := removelast p.

(** [p / name] *)
Definition child (p : path) (name : string) : path := (p ++ [name])%list.

(** [str(p)] *)
Definition path_str (p : path) : string :=
  match p with
  | [] => "/"
  | _ => fold_right (fun c acc => "/" ++ c ++ acc) "" p
  end.

(** [str(e)] of an [OSError] about the file [p]:
    "[Errno <errno>] <strerror>: '<p>'". *)
Definition os_error_msg (errno strerror : string) (p : path) : string :=
  "[Errno " ++ errno ++ "] " ++ strerror ++ ": '" ++ path_str p ++ "'".

(** The values [json.dump] is given.  Python dictionaries keep insertion
    order, hence the association list. *)
Inductive json :=
| JInt (n : Z)
| JFloat (x : Z)
| JStr (s : string)
| JList (l : list json)
| JObj (fields : list (string * json)).

(** Filesystem entries.  The one file the validator writes is a JSON
    document, so a file's content is kept as the value it encodes. *)
Inductive node :=
| Dir
| File (content : json).

(** Exception classes that reach the validator.  All of them derive from
    [Exception]. *)
Inductive exn_class :=
| TimeoutExpired
| FileNotFoundError
| FileExistsError
| IsADirectoryError
| OtherException.

Record exn := Exn { exn_cls : exn_class; exn_msg : string }.

(** What [subprocess.run(..., capture_output=True, text=True, timeout=300)]
    does: it completes with a return code and the two captured streams, or
    it raises. *)
Inductive proc_outcome :=
| Completed (returncode : Z) (out err : string)
| Raised (e : exn).

(** One entry of [test_results["errors"]]. *)
Record error_entry := ErrorEntry {
  err_test : string;
  err_error : string;
  err_time : Z
}.

(** One entry of [test_results["performance"]]. *)
Record perf_sample := PerfSample {
  perf_duration : Z;
  perf_iterations : Z
}.

(** [self.test_results].  Clock readings are floats in the source; here they
    are integer ticks and durations are their exact difference. *)
Record test_results := TestResults {
  total_tests : Z;
  passed_tests : Z;
  failed_tests : Z;
  errors : list error_entry;
  performance : gmap string perf_sample;
  start_time : Z
}.

(** The four [log_*] prefixes, and the two-space prefix of [log_verbose]. *)
Inductive level := INFO | SUCCESS | WARNING | ERROR | VERBOSE.

(** One [subprocess.run] the validator performed. *)
Record call := Call {
  call_argv : list string;
  call_cwd : path;
  call_outcome : proc_outcome
}.

(** The validator object and the world around it. *)
Record state := State {
  verbose : bool;
  results : test_results;
  fs : gmap path node;
  stdout : list (level * string);
  calls : list call;
  ticks : nat
}.

(** What the outside world decides. *)
Record env := Env {
  (** [Path(__file__)] *)
  script_file : path;
  (** the n-th reading of [time.time()] *)
  clock : nat -> Z;
  (** [time.strftime("%Y%m%d-%H%M%S")] *)
  strftime : string;
  (** the format [{:.2f}] *)
  fmt2f : Z -> string;
  (** the n-th process started, given its command line, working directory
      and the filesystem it finds: its outcome and the filesystem it
      leaves *)
  spawn : nat -> list string -> path -> gmap path node ->
          proc_outcome * gmap path node
}.

(** ** The monad of the harness: state, and [Exception]s *)

Definition M (A : Type) : Type := state -> (exn + A) * state.

Definition ret {A} (a : A) : M A := fun s => (inr a, s).

Definition bind {A B} (m : M A) (k : A -> M B) : M B :=
  fun s =>
    match m s with
    | (inr a, s') => k a s'
    | (inl x, s') => (inl x, s')
    end.

Declare Scope M_scope.
Delimit Scope M_scope with M.
Bind Scope M_scope with M.

Notation "x ← y ; z" := (bind y (fun x => z))
  (at level 20, y at level 100, z at level 200, only parsing) : M_scope.
Notation "' x ← y ; z" := (bind y (fun x => z))
  (at level 20, x pattern, y at level 100, z at level 200, only parsing)
  : M_scope.
Notation "x ;; z" := (bind x (fun _ => z))
  (at level 100, z at level 200, only parsing, right associativity)
  : M_scope.

Open Scope M_scope.

Definition raise {A} (e : exn) : M A := fun s => (inl e, s).

(** [try: body  except ...: handler e] *)
Definition try_except {A} (body : M A) (handler : exn -> M A) : M A :=
  fun s =>
    match body s with
    | (inr a, s') => (inr a, s')
    | (inl e, s') => handler e s'
    end.

Definition gets {A} (f : state -> A) : M A := fun s => (inr (f s), s).

Definition modify (f : state -> state) : M unit := fun s => (inr tt, f s).

(** [for x in xs: body x] *)
Fixpoint for_each {A} (xs : list A) (body : A -> M unit) : M unit :=
  match xs with
  | [] => ret tt
  | x :: rest => body x;; for_each rest body
  end.

(** ** State updates *)

Definition set_results (r : test_results) (s : state) : state :=
  State (verbose s) r (fs s) (stdout s) (calls s) (ticks s).

Definition set_fs (f : gmap path node) (s : state) : state :=
  State (verbose s) (results s) f (stdout s) (calls s) (ticks s).

Definition add_stdout (l : level) (msg : string) (s : state) : state :=
  State (verbose s) (results s) (fs s) (stdout s ++ [(l, msg)])%list (calls s)
        (ticks s).

Definition add_call (c : call) (s : state) : state :=
  State (verbose s) (results s) (fs s) (stdout s) (calls s ++ [c])%list (ticks s).

Definition tick (s : state) : state :=
  State (verbose s) (results s) (fs s) (stdout s) (calls s) (S (ticks s)).

(** ** Primitive effects *)

(** [print] of a line with the prefix [l] *)
Definition print (l : level) (msg : string) : M unit :=
  modify (add_stdout l msg).

(** [time.time()] *)
Definition time_time (e : env) : M Z :=
  fun s => (inr (clock e (ticks s)), tick s).

(** [subprocess.run(argv, cwd=cwd, capture_output=True, text=True,
    timeout=300)] *)
Definition subprocess_run (e : env) (argv : list string) (cwd : path)
  : M (Z * string * string) :=
  fun s =>
    let '(o, fs') := spawn e (length (calls s)) argv cwd (fs s) in
    let s' := add_call (Call argv cwd o) (set_fs fs' s) in
    match o with
    | Completed rc out err => (inr (rc, out, err), s')
    | Raised x => (inl x, s')
    end.

(** Filesystem queries.  The root always exists and is a directory. *)
Definition path_exists (f : gmap path node) (p : path) : bool :=
  match p with
  | [] => true
  | _ => match f !! p with Some _ => true | None => false end
  end.

Definition is_dir (f : gmap path node) (p : path) : bool :=
  match p with
  | [] => true
  | _ => match f !! p with Some Dir => true | _ => false end
  end.

(** [p.exists()] *)
Definition exists_ (p : path) : M bool :=
  gets (fun s => path_exists (fs s) p).

(** [p.mkdir(exist_ok=True)]: one level only, the parent has to be there. *)
Definition mkdir_exist_ok (p : path) : M unit :=
  fun s =>
    if is_dir (fs s) p then (inr tt, s)
    else if path_exists (fs s) p then
      (inl (Exn FileExistsError (os_error_msg "17" "File exists" p)), s)
    else if is_dir (fs s) (parent p) then
      (inr tt, set_fs (<[p := Dir]> (fs s)) s)
    else
      (inl (Exn FileNotFoundError
                (os_error_msg "2" "No such file or directory" p)), s).

(** Whether [open(p, "w")] goes through: the parent is a directory and [p]
    is not one. *)
Definition can_open_w (f : gmap path node) (p : path) : bool :=
  is_dir f (parent p) && negb (is_dir f p).

(** [with open(p, "w") as f: json.dump(v, f, indent=2)] *)
Definition write_json (p : path) (v : json) : M unit :=
  fun s =>
    if is_dir (fs s) p then
      (inl (Exn IsADirectoryError (os_error_msg "21" "Is a directory" p)), s)
    else if is_dir (fs s) (parent p) then
      (inr tt, set_fs (<[p := File v]> (fs s)) s)
    else
      (inl (Exn FileNotFoundError
                (os_error_msg "2" "No such file or directory" p)), s).

(** [for x in xs: acc = body x acc], for loops that update a local. *)
Fixpoint for_acc {A B} (xs : list A) (acc : B) (body : A -> B -> M B)
  : M B :=
  match xs with
  | [] => ret acc
  | x :: rest => acc' ← body x acc; for_acc rest acc' body
  end.

(** [s[:n]].  Strings here are sequences of bytes: the slice agrees with
    Python's, which counts code points, on ASCII text. *)
Definition str_take (n : nat) (s : string) : string := substring 0 n s.

(** [bool(s)] of a string *)
Definition nonempty (s : string) : bool := negb (String.eqb s "").

Definition ends_with (suffix s : string) : bool :=
  let n := String.length s in
  let m := String.length suffix in
  (m <=? n)%nat && String.eqb (substring (n - m) m s) suffix.

(** [dir.glob("*.rs")]: the entries of [dir] whose name ends in [.rs]. *)
Definition glob_rs (f : gmap path node) (dir : path) : list path :=
  List.filter
    (fun p => bool_decide (p ≠ []) && bool_decide (parent p = dir)
              && ends_with ".rs" (List.last p ""))
    (List.map fst (map_to_list f)).

(** [p.stem] of a path whose name ends in [.rs]: the name without that
    suffix, except for the bare name [.rs], which has no suffix. *)
Definition stem (p : path) : string :=
  let name := List.last p "" in
  let n := String.length name in
  if (n =? 3)%nat then name else substring 0 (n - 3) name.

(** ** [class PathValidator] *)

Section PathValidator.

Variable e : env.

Definition script_dir : path := parent (script_file e).
Definition project_root : path := parent script_dir.
Definition winpath_dir : path := child (child project_root "shared") "winpath".
Definition test_results_dir : path := child project_root "test-results".

(** [__init__] *)
Definition init (verbose_flag : bool) : M unit :=
  t ← time_time e;
  modify (fun s =>
    State verbose_flag (TestResults 0 0 0 [] ∅ t) (fs s) (stdout s)
          (calls s) (ticks s));;
  mkdir_exist_ok test_results_dir.

Definition log_info (message : string) : M unit := print INFO message.
Definition log_success (message : string) : M unit := print SUCCESS message.
Definition log_warning (message : string) : M unit := print WARNING message.
Definition log_error (message : string) : M unit := print ERROR message.

Definition log_verbose (message : string) : M unit :=
  v ← gets verbose;
  if v then print VERBOSE message else ret tt.

Definition incr_total (r : test_results) : test_results :=
  TestResults (total_tests r + 1) (passed_tests r) (failed_tests r)
              (errors r) (performance r) (start_time r).

Definition incr_passed (r : test_results) : test_results :=
  TestResults (total_tests r) (passed_tests r + 1) (failed_tests r)
              (errors r) (performance r) (start_time r).

Definition incr_failed (r : test_results) : test_results :=
  TestResults (total_tests r) (passed_tests r) (failed_tests r + 1)
              (errors r) (performance r) (start_time r).

Definition append_error (x : error_entry) (r : test_results) : test_results :=
  TestResults (total_tests r) (passed_tests r) (failed_tests r)
              (errors r ++ [x])%list (performance r) (start_time r).

Definition set_performance (k : string) (v : perf_sample) (r : test_results)
  : test_results :=
  TestResults (total_tests r) (passed_tests r) (failed_tests r)
              (errors r) (<[k := v]> (performance r)) (start_time r).

Definition update_results (f : test_results -> test_results) : M unit :=
  modify (fun s => set_results (f (results s)) s).

Definition start_test (test_name : string) : M unit :=
  log_info ("Running test: " ++ test_name);;
  update_results incr_total.

Definition complete_test (test_name : string) (success : bool)
           (error_message : string) : M unit :=
  if success then
    update_results incr_passed;;
    log_success (test_name ++ " completed successfully")
  else
    update_results incr_failed;;
    t ← time_time e;
    update_results (append_error (ErrorEntry test_name error_message t));;
    log_error (test_name ++ " failed: " ++ error_message).

(** [run_cargo_command(args, cwd)]; [cwd = None] stands for the default. *)
Definition run_cargo_command (args : list string) (cwd : option path)
  : M (bool * string) :=
  let cwd := match cwd with None => winpath_dir | Some d => d end in
  try_except
    ('(returncode, out, err) ← subprocess_run e ("cargo" :: args) cwd;
     let output := out ++ err in
     let success := (returncode =? 0)%Z in
     v ← gets verbose;
     (if v && nonempty output
      then log_verbose ("Command output: " ++ str_take 500 output ++ "...")
      else ret tt);;
     ret (success, output))
    (fun x =>
       match exn_cls x with
       | TimeoutExpired => ret (false, "Command timed out")
       | _ => ret (false, exn_msg x)
       end).

Definition test_basic_compilation : M bool :=
  start_test "Basic Compilation";;
  log_verbose "Testing debug build...";;
  '(success, output) ← run_cargo_command ["build"] None;
  if negb success then
    complete_test "Basic Compilation" false ("Debug build failed: " ++ output);;
    ret false
  else
  log_verbose "Testing release build...";;
  '(success, output) ← run_cargo_command ["build"; "--release"] None;
  if negb success then
    complete_test "Basic Compilation" false
                  ("Release build failed: " ++ output);;
    ret false
  else
  log_verbose "Testing build with all features...";;
  '(success, output) ← run_cargo_command ["build"; "--all-features"] None;
  if negb success then
    complete_test "Basic Compilation" false
                  ("All-features build failed: " ++ output);;
    ret false
  else
  complete_test "Basic Compilation" true "";;
  ret true.

Definition test_unit_tests : M bool :=
  start_test "Unit Tests";;
  '(success, output) ← run_cargo_command ["test"; "--lib"] None;
  if negb success then
    complete_test "Unit Tests" false ("Unit tests failed: " ++ output);;
    ret false
  else
  complete_test "Unit Tests" true "";;
  ret true.

Definition test_files : list string :=
  ["basic_tests"; "wsl_path_tests"; "git_bash_tests"; "integration_tests"].

Definition test_integration_tests : M bool :=
  start_test "Integration Tests";;
  '(success, output) ← run_cargo_command ["test"; "--test"; "*"] None;
  all_passed ← for_acc test_files true (fun test_file all_passed =>
    log_verbose ("Running " ++ test_file ++ "...");;
    '(success, output) ← run_cargo_command ["test"; "--test"; test_file] None;
    if negb success then
      log_warning ("Test file " ++ test_file ++ " had issues: "
                   ++ str_take 200 output ++ "...");;
      ret false
    else ret all_passed);
  complete_test "Integration Tests" all_passed "";;
  ret all_passed.

Definition test_patterns : list string :=
  ["git_bash_mangled_paths"; "git_bash_complex_paths"; "git_bash_edge_cases";
   "wsl_vs_git_bash_differentiation"].

Definition test_git_bash_specific : M bool :=
  start_test "Git Bash Path Handling";;
  '(success, output) ← run_cargo_command ["test"; "--test"; "git_bash_tests"]
                                         None;
  if negb success then
    complete_test "Git Bash Path Handling" false
                  ("Git Bash tests failed: " ++ output);;
    ret false
  else
  all_passed ← for_acc test_patterns true (fun pattern all_passed =>
    log_verbose ("Testing pattern: " ++ pattern);;
    '(success, output) ← run_cargo_command ["test"; pattern] None;
    if negb success then
      log_warning ("Pattern " ++ pattern ++ " test had issues");;
      ret false
    else ret all_passed);
  complete_test "Git Bash Path Handling" all_passed "";;
  ret all_passed.

Definition test_performance (iterations : Z) : M bool :=
  start_test "Performance Tests";;
  start ← time_time e;
  log_verbose "Running benchmark suite...";;
  '(success, output) ← run_cargo_command ["bench"; "--no-run"] None;
  log_verbose "Running performance tests...";;
  '(success, output) ← run_cargo_command ["test"; "--release"; "performance"]
                                         None;
  end_time ← time_time e;
  let duration := end_time - start in
  update_results (set_performance "test_suite"
                                  (PerfSample duration iterations));;
  complete_test "Performance Tests" true "";;
  ret true.

Definition test_examples : M bool :=
  start_test "Example Programs";;
  let examples_dir := child winpath_dir "examples" in
  present ← exists_ examples_dir;
  if negb present then
    log_warning "Examples directory not found, skipping example tests";;
    complete_test "Example Programs" true "";;
    ret true
  else
  log_verbose "Building examples...";;
  '(success, output) ← run_cargo_command ["build"; "--examples"] None;
  if negb success then
    complete_test "Example Programs" false
                  ("Examples build failed: " ++ output);;
    ret false
  else
  example_files ← gets (fun s => glob_rs (fs s) examples_dir);
  for_each example_files (fun example_file =>
    let example_name := stem example_file in
    log_verbose ("Testing example: " ++ example_name);;
    '(success, output) ← run_cargo_command
        ["run"; "--example"; example_name; "--"; "C:\test\path"] None;
    if negb success then
      log_warning ("Example " ++ example_name ++ " had issues: "
                   ++ str_take 100 output ++ "...")
    else ret tt);;
  complete_test "Example Programs" true "";;
  ret true.

Definition test_documentation : M bool :=
  start_test "Documentation Tests";;
  log_verbose "Testing documentation build...";;
  '(success, output) ← run_cargo_command ["doc"; "--no-deps"] None;
  if negb success then
    complete_test "Documentation Tests" false ("Doc build failed: " ++ output);;
    ret false
  else
  log_verbose "Running documentation tests...";;
  '(success, output) ← run_cargo_command ["test"; "--doc"] None;
  (if negb success then
     log_warning ("Documentation tests had issues: "
                  ++ str_take 200 output ++ "...")
   else ret tt);;
  complete_test "Documentation Tests" true "";;
  ret true.

Definition test_executable_paths : M bool :=
  start_test "Executable Path Reporting";;
  let winutils_test_dir := child project_root "tests" in
  present ← exists_ winutils_test_dir;
  (if present then
     log_verbose "Running executable path tests...";;
     '(success, output) ← run_cargo_command
         ["test"; "--test"; "executable_path_tests"] (Some project_root);
     if negb success then
       log_warning ("Executable path tests had issues: "
                    ++ str_take 200 output ++ "...")
     else ret tt
   else ret tt);;
  complete_test "Executable Path Reporting" true "";;
  ret true.

Definition validate_path_patterns : M bool :=
  start_test "Path Pattern Validation";;
  log_verbose "Testing valid path patterns...";;
  log_verbose "Testing mangled path patterns...";;
  complete_test "Path Pattern Validation" true "";;
  ret true.

Definition error_json (x : error_entry) : json :=
  JObj [("test", JStr (err_test x)); ("error", JStr (err_error x));
        ("time", JFloat (err_time x))].

Definition perf_json (d : perf_sample) : json :=
  JObj [("duration", JFloat (perf_duration d));
        ("iterations", JInt (perf_iterations d))].

Definition summary_json (r : test_results) (total_duration end_time : Z)
  : json :=
  JObj [("total_tests", JInt (total_tests r));
        ("passed_tests", JInt (passed_tests r));
        ("failed_tests", JInt (failed_tests r));
        ("duration", JFloat total_duration);
        ("start_time", JFloat (start_time r));
        ("end_time", JFloat end_time)].

Definition report_data (r : test_results) (total_duration end_time : Z)
  : json :=
  JObj [("summary", summary_json r total_duration end_time);
        ("errors", JList (List.map error_json (errors r)));
        ("performance",
         JObj (List.map (fun kv => (fst kv, perf_json (snd kv)))
                        (map_to_list (performance r))))].

Definition generate_report (output_file : option path) : M bool :=
  end_time ← time_time e;
  r ← gets results;
  let total_duration := end_time - start_time r in
  log_info "=== WinPath Validation Report ===";;
  log_info ("Test Duration: " ++ fmt2f e total_duration ++ " seconds");;
  log_info ("Total Tests: " ++ pretty (total_tests r));;
  log_success ("Passed: " ++ pretty (passed_tests r));;
  (if (failed_tests r >? 0)%Z then
     log_error ("Failed: " ++ pretty (failed_tests r));;
     log_info "Errors:";;
     for_each (errors r) (fun error =>
       log_error ("  " ++ err_test error ++ ": " ++ err_error error))
   else ret tt);;
  (match map_to_list (performance r) with
   | [] => ret tt
   | items =>
       log_info "Performance Results:";;
       for_each items (fun '(name, data) =>
         log_info ("  " ++ name ++ ": " ++ fmt2f e (perf_duration data)
                   ++ "s"))
   end);;
  (match output_file with
   | Some p =>
       write_json p (report_data r total_duration end_time);;
       log_info ("Report written to: " ++ path_str p)
   | None => ret tt
   end);;
  ret (failed_tests r =? 0)%Z.

Definition run_validation_suite (performance git_bash full_suite : bool)
           (iterations : Z) : M bool :=
  log_info "WinPath Validation Suite";;
  log_info "========================";;
  log_info ("Project root: " ++ path_str project_root);;
  log_info ("WinPath directory: " ++ path_str winpath_dir);;
  present ← exists_ winpath_dir;
  if negb present then
    log_error ("WinPath directory not found: " ++ path_str winpath_dir);;
    ret false
  else
  let success := true in
  b ← test_basic_compilation;
  let success := success && b in
  b ← test_unit_tests;
  let success := success && b in
  b ← test_integration_tests;
  let success := success && b in
  b ← test_examples;
  let success := success && b in
  b ← test_documentation;
  let success := success && b in
  b ← validate_path_patterns;
  let success := success && b in
  success ← (if git_bash || full_suite then
               b ← test_git_bash_specific;
               ret (success && b)
             else ret success);
  success ← (if performance || full_suite then
               b ← test_performance iterations;
               ret (success && b)
             else ret success);
  b ← test_executable_paths;
  let success := success && b in
  ret success.

(** ** [main] *)

(** The parsed command line.  [arg_output = None] stands for an absent or
    empty [--output]. *)
Record args := Args {
  arg_verbose : bool;
  arg_performance : bool;
  arg_git_bash : bool;
  arg_full : bool;
  arg_iterations : Z;
  arg_output : option path
}.

Definition main (a : args) : M Z :=
  init (arg_verbose a);;
  try_except
    (success ← run_validation_suite (arg_performance a) (arg_git_bash a)
                                    (arg_full a) (arg_iterations a);
     let output_file :=
       match arg_output a with
       | Some p => p
       | None => child test_results_dir
                       ("winpath-validation-" ++ strftime e ++ ".json")
       end in
     report_success ← generate_report (Some output_file);
     if success && report_success then
       log_success "All tests passed successfully!";;
       ret 0
     else
       log_error "Some tests failed. Check the report for details.";;
       ret 1)
    (fun x =>
       log_error ("Validation failed with error: " ++ exn_msg x);;
       ret 1).

(** The [except KeyboardInterrupt] branch of [main].  An operator
    interrupt is asynchronous: it can cut the [try] block of [main] short
    between any two instructions, also between a [start_test] and its
    [complete_test].  [main] above is the script when no interrupt arrives;
    when one does, this handler runs on the state the interrupt left. *)
Definition on_keyboard_interrupt : M Z :=
  log_warning "Validation interrupted by user";;
  ret 1.

End PathValidator.

(** The process: it starts with no validator and an empty output, and
    [sys.exit(main())] turns an uncaught exception into status 1. *)
Definition process_start (f : gmap path node) : state :=
  State false (TestResults 0 0 0 [] ∅ 0) f [] [] 0.

Definition exit_code (r : exn + Z) : Z :=
  match r with
  | inr n => n
  | inl _ => 1
  end.

Definition run_script (e : env) (a : args) (f : gmap path node) : Z * state :=
  let '(r, s) := main e a (process_start f) in (exit_code r, s).

(** * Vocabulary of the specifications *)

(** ** Weakest preconditions: the run returns (it does not raise) and the
    result satisfies [Q]. *)

Definition wp {A} (m : M A) (Q : A -> state -> Prop) (s : state) : Prop :=
  match m s with
  | (inr a, s') => Q a s'
  | (inl _, _) => False
  end.

(** ** Which checks were started, read off the output *)

Fixpoint strip_prefix (p s : string) : option string :=
  match p with
  | EmptyString => Some s
  | String a p' =>
      match s with
      | EmptyString => None
      | String b s' => if Ascii.eqb a b then strip_prefix p' s' else None
      end
  end.

(** The check announced by a line "Running test: <name>" of [log_info]. *)
Definition start_line (l : level * string) : option string :=
  match fst l with
  | INFO => strip_prefix "Running test: " (snd l)
  | _ => None
  end.

Definition started (s : state) : list string := omap start_line (stdout s).

(** ** Steps that leave the record alone *)

(** The counters, the error list and the start time agree. *)
Definition same_counts (r r' : test_results) : Prop :=
  total_tests r' = total_tests r /\ passed_tests r' = passed_tests r /\
  failed_tests r' = failed_tests r /\ errors r' = errors r /\
  start_time r' = start_time r.

(** [frame s s']: from [s] to [s'] the validator's counters and flag are
    untouched, no check was started, and the output and the list of
    processes only grew. *)
Record frame (s s' : state) : Prop := Frame {
  frame_results : same_counts (results s) (results s');
  frame_verbose : verbose s' = verbose s;
  frame_started : started s' = started s;
  frame_stdout : stdout s `prefix_of` stdout s';
  frame_calls : calls s `prefix_of` calls s'
}.

(** [log_step s s']: from [s] to [s'] only output was printed, and it
    announced no check. *)
Record log_step (s s' : state) : Prop := LogStep {
  log_results : results s' = results s;
  log_verbose_ : verbose s' = verbose s;
  log_fs : fs s' = fs s;
  log_calls : calls s' = calls s;
  log_ticks : ticks s' = ticks s;
  log_started : started s' = started s;
  log_stdout : stdout s `prefix_of` stdout s'
}.

(** [m] never raises, and relates the state it finds to the state it
    leaves by [R]. *)
Definition preserves {A} (R : state -> state -> Prop) (m : M A) : Prop :=
  forall s Q, (forall a s', R s s' -> Q a s') -> wp m Q s.

Definition quiet {A} (m : M A) : Prop := preserves frame m.

Definition logging {A} (m : M A) : Prop := preserves log_step m.

(** ** What one check does to the record *)

(** The effect of [complete_test name ok _] on the record. *)
Definition closes (name : string) (ok : bool) (r r' : test_results) : Prop :=
  total_tests r' = total_tests r /\ start_time r' = start_time r /\
  if ok then
    passed_tests r' = passed_tests r + 1 /\ failed_tests r' = failed_tests r
    /\ errors r' = errors r
  else
    passed_tests r' = passed_tests r /\ failed_tests r' = failed_tests r + 1
    /\ exists msg t, errors r' = (errors r ++ [ErrorEntry name msg t])%list.

(** The effect of [start_test name] followed by [complete_test name ok _]. *)
Definition recorded (name : string) (ok : bool) (r r' : test_results) : Prop :=
  closes name ok (incr_total r) r'.

(** A run from [s] to [s'] that completes the check [name] with [ok]. *)
Record completed (name : string) (s : state) (ok : bool) (s' : state)
  : Prop := Completed_ {
  completed_results : closes name ok (results s) (results s');
  completed_verbose : verbose s' = verbose s;
  completed_started : started s' = started s;
  completed_stdout : stdout s `prefix_of` stdout s';
  completed_calls : calls s `prefix_of` calls s'
}.

(** A run from [s] to [s'] that starts the check [name] and completes it
    with [ok]. *)
Record checked (name : string) (s : state) (ok : bool) (s' : state)
  : Prop := Checked {
  checked_results : recorded name ok (results s) (results s');
  checked_verbose : verbose s' = verbose s;
  checked_started : started s' = (started s ++ [name])%list;
  checked_stdout : stdout s `prefix_of` stdout s';
  checked_calls : calls s `prefix_of` calls s'
}.

(** [m] never raises, completes the check [name] once, as its last effect,
    and returns what it recorded. *)
Definition finishing (name : string) (m : M bool) : Prop :=
  forall s Q, (forall b s', completed name s b s' -> Q b s') -> wp m Q s.

(** [m] never raises, starts and completes the check [name] once, and
    returns what it recorded. *)
Definition check (name : string) (m : M bool) : Prop :=
  forall s Q, (forall b s', checked name s b s' -> Q b s') -> wp m Q s.

(** The two invariants of the record. *)
Definition balanced (r : test_results) : Prop :=
  total_tests r = passed_tests r + failed_tests r.

Definition errors_counted (r : test_results) : Prop :=
  Z.of_nat (length (errors r)) = failed_tests r.

(** ** What a cargo invocation returned *)

Definition outcome_ok (o : proc_outcome) : bool :=
  match o with
  | Completed rc _ _ => (rc =? 0)%Z
  | Raised _ => false
  end.

Definition outcome_text (o : proc_outcome) : string :=
  match o with
  | Completed _ out err => out ++ err
  | Raised x =>
      match exn_cls x with
      | TimeoutExpired => "Command timed out"
      | _ => exn_msg x
      end
  end.

(** The working directory [run_cargo_command] uses. *)
Definition cargo_cwd (e : env) (cwd : option path) : path :=
  match cwd with
  | None => winpath_dir e
  | Some d => d
  end.

(** ** The suite as a list of checks *)

(** The checks [run_validation_suite] goes through when the library root
    exists, in its order. *)
Definition suite_checks (e : env) (performance git_bash full_suite : bool)
           (iterations : Z) : list (string * M bool) :=
  ([("Basic Compilation", test_basic_compilation e);
    ("Unit Tests", test_unit_tests e);
    ("Integration Tests", test_integration_tests e);
    ("Example Programs", test_examples e);
    ("Documentation Tests", test_documentation e);
    ("Path Pattern Validation", validate_path_patterns e)]
   ++ (if git_bash || full_suite
       then [("Git Bash Path Handling", test_git_bash_specific e)] else [])
   ++ (if performance || full_suite
       then [("Performance Tests", test_performance e iterations)] else [])
   ++ [("Executable Path Reporting", test_executable_paths e)])%list.

(** [success &= c()] for each [c] in turn. *)
Fixpoint run_checks (cs : list (M bool)) (success : bool) : M bool :=
  match cs with
  | [] => ret success
  | c :: rest => b ← c; run_checks rest (success && b)
  end.

(** The state [run_validation_suite] reaches before its first check. *)
Definition suite_header (e : env) (s : state) : state :=
  add_stdout INFO ("WinPath directory: " ++ path_str (winpath_dir e))
    (add_stdout INFO ("Project root: " ++ path_str (project_root e))
       (add_stdout INFO "========================"
          (add_stdout INFO "WinPath Validation Suite" s))).

(** ** Reading a report back *)

(** [j[k]] for a JSON object *)
Definition json_field (k : string) (j : json) : option json :=
  match j with
  | JObj fields => snd <$> List.find (fun kv => String.eqb (fst kv) k) fields
  | _ => None
  end.

(** [j["summary"][k]] *)
Definition summary_field (k : string) (j : json) : option json :=
  match json_field "summary" j with
  | Some sm => json_field k sm
  | None => None
  end.

(** A run from [s] to [s'] that went through the checks [names]. *)
Record suite_done (names : list string) (s s' : state) : Prop := SuiteDone {
  done_started : started s' = (started s ++ names)%list;
  done_total :
    total_tests (results s')
    = total_tests (results s) + Z.of_nat (length names);
  done_balanced : balanced (results s) -> balanced (results s');
  done_errors : errors_counted (results s) -> errors_counted (results s');
  done_start_time : start_time (results s') = start_time (results s);
  done_verbose : verbose s' = verbose s;
  done_stdout : stdout s `prefix_of` stdout s';
  done_calls : calls s `prefix_of` calls s'
}.

(** A filesystem entry that is a report whose summary counters add up. *)
Definition report_balanced (n : option node) : Prop :=
  exists j total passed failed,
    n = Some (File j) /\
    summary_field "total_tests" j = Some (JInt total) /\
    summary_field "passed_tests" j = Some (JInt passed) /\
    summary_field "failed_tests" j = Some (JInt failed) /\
    total = passed + failed.

(** Where [main] sends the report. *)
Definition report_destination (e : env) (a : args) : path :=
  match arg_output a with
  | Some p => p
  | None => child (test_results_dir e)
                  ("winpath-validation-" ++ strftime e ++ ".json")
  end.

(** ** A concrete installation, for examples *)

Definition demo_root : path := ["repo"; "winutils"].

Definition demo_fs : gmap path node :=
  list_to_map
    [(["repo"], Dir); (demo_root, Dir); (child demo_root "scripts", Dir);
     (child demo_root "shared", Dir);
     (child (child demo_root "shared") "winpath", Dir)].

(** Every cargo invocation succeeds, except those whose command line is in
    [failing], which exit with status 1. *)
Definition demo_spawn (failing : list (list string)) (n : nat)
           (argv : list string) (cwd : path) (f : gmap path node)
  : proc_outcome * gmap path node :=
  if bool_decide (argv ∈ failing)
  then (Completed 1 "" "error: failed", f)
  else (Completed 0 "ok" "", f).

Definition demo_env (failing : list (list string)) : env :=
  Env (child (child demo_root "scripts") "validate_paths.py")
      (fun n => Z.of_nat n) "20240101-120000" (fun x => pretty x)
      (demo_spawn failing).

(** The state right after [PathValidator(verbose=False)]. *)
Definition demo_init (failing : list (list string)) (f : gmap path node)
  : state :=
  snd (init (demo_env failing) false (process_start f)).

(** ** Outcomes of single checks *)

(** From [s] to [s'] one check was counted and recorded as passed. *)
Definition one_pass (s s' : state) : Prop :=
  total_tests (results s') = total_tests (results s) + 1 /\
  passed_tests (results s') = passed_tests (results s) + 1 /\
  failed_tests (results s') = failed_tests (results s) /\
  errors (results s') = errors (results s).

(** From [s] to [s'] one check was counted and recorded as failed, with one
    entry for [name] appended to the error list. *)
Definition one_failure (name : string) (s s' : state) : Prop :=
  total_tests (results s') = total_tests (results s) + 1 /\
  passed_tests (results s') = passed_tests (results s) /\
  failed_tests (results s') = failed_tests (results s) + 1 /\
  exists msg t,
    errors (results s') = (errors (results s) ++ [ErrorEntry name msg t])%list.

(** The command line of a cargo invocation. *)
Definition cargo (args : list string) : list string := "cargo" :: args.

(** The call [c] ran [cargo args] in [cwd]. *)
Definition invoked (c : call) (args : list string) (cwd : path) : Prop :=
  call_argv c = cargo args /\ call_cwd c = cwd.

Definition call_ok (c : call) : bool := outcome_ok (call_outcome c).

Definition call_text (c : call) : string := outcome_text (call_outcome c).

(** The three builds of the compilation check, in the order it tries them. *)
Definition build_variants : list (list string) :=
  [["build"]; ["build"; "--release"]; ["build"; "--all-features"]].

(** [run_until_failure wd variants cs ok]: the calls [cs] ran the cargo
    commands [variants] in [wd], in order, stopping after the first one that
    failed; [ok] tells whether all of them ran and succeeded. *)
Inductive run_until_failure (wd : path)
  : list (list string) -> list call -> bool -> Prop :=
| run_all_ok : run_until_failure wd [] [] true
| run_failed c args rest :
    invoked c args wd -> call_ok c = false ->
    run_until_failure wd (args :: rest) [c] false
| run_next c args rest cs ok :
    invoked c args wd -> call_ok c = true ->
    run_until_failure wd rest cs ok ->
    run_until_failure wd (args :: rest) (c :: cs) ok.

(** The sub-suite call [c] ran the test file [f] in [wd]; if it failed, its
    warning is in the output [out]. *)
Definition sub_suite_logged (wd : path) (out : list (level * string))
           (c : call) (f : string) : Prop :=
  invoked c ["test"; "--test"; f] wd /\
  (call_ok c = false ->
   In (WARNING,
       "Test file " ++ f ++ " had issues: "
       ++ str_take 200 (call_text c) ++ "...") out).

(** Every cargo invocation succeeds, except the one for the test file
    [basic_tests]. *)
Definition demo_basic_tests_fail : env :=
  demo_env [cargo ["test"; "--test"; "basic_tests"]].

(** A destination whose parent directory does not exist in [demo_fs]. *)
Definition demo_far_destination : path := ["reports"; "run1"; "report.json"].

(** The installation without the library root [shared/winpath]. *)
Definition demo_fs_no_root : gmap path node :=
  delete (child (child demo_root "shared") "winpath") demo_fs.

Definition demo_args : args := Args false false false false 1000 None.

(** The probe call [c] ran [cargo test pattern] in [wd]; if it failed, its
    warning is in the output [out]. *)
Definition probe_logged (wd : path) (out : list (level * string))
           (c : call) (pattern : string) : Prop :=
  invoked c ["test"; pattern] wd /\
  (call_ok c = false ->
   In (WARNING, "Pattern " ++ pattern ++ " test had issues") out).

(** The call [c] ran the example whose source file is [p]. *)
Definition example_run (wd : path) (c : call) (p : path) : Prop :=
  invoked c ["run"; "--example"; stem p; "--"; "C:\test\path"] wd.

(** The installation with an examples directory holding one example. *)
Definition demo_fs_examples : gmap path node :=
  <[child (child (child (child demo_root "shared") "winpath") "examples")
          "convert.rs" := File (JStr "fn main() {}")]>
    (<[child (child (child demo_root "shared") "winpath") "examples" := Dir]>
       demo_fs).

(** From [s] to [s'] the error list grew by entries for checks among
    [names], in the order of [names]. *)
Definition errors_name (names : list string) (s s' : state) : Prop :=
  exists new,
    errors (results s') = (errors (results s) ++ new)%list /\
    List.map err_test new `sublist_of` names.

(** With [verbose] off, nothing is printed with the verbose prefix. *)
Definition hushed (s s' : state) : Prop :=
  verbose s' = verbose s /\
  (verbose s = false ->
   exists extra,
     stdout s' = (stdout s ++ extra)%list /\
     Forall (fun l => fst l <> VERBOSE) extra).

(** The command line [--output /reports/run1/report.json]. *)
Definition demo_args_far : args :=
  Args false false false false 1000 (Some demo_far_destination).
(** * Reasoning about runs *)

Lemma wp_ret {A} (a : A) Q s : Q a s -> wp (ret a) Q s.
Proof. intros H. exact H. Qed.

Lemma wp_bind {A B} (m : M A) (k : A -> M B) Q s :
  wp m (fun a s' => wp (k a) Q s') s -> wp (bind m k) Q s.
Proof.
  unfold wp, bind. destruct (m s) as [[x|a] s']; [intros []|]. intros H. exact H.
Qed.

Lemma wp_mono {A} (m : M A) (Q Q' : A -> state -> Prop) s :
  wp m Q s -> (forall a s', Q a s' -> Q' a s') -> wp m Q' s.
Proof.
  unfold wp. destruct (m s) as [[x|a] s']; [intros []|]. intros H HQ. auto.
Qed.

Lemma wp_elim {A} (m : M A) Q s :
  wp m Q s -> exists a s', m s = (inr a, s') /\ Q a s'.
Proof.
  unfold wp. destruct (m s) as [[x|a] s']; [intros []|]. intros H.
  exists a, s'. split; [reflexivity | exact H].
Qed.

Lemma wp_intro {A} (m : M A) (Q : A -> state -> Prop) s a s' :
  m s = (inr a, s') -> Q a s' -> wp m Q s.
Proof. intros Hm H. unfold wp. rewrite Hm. exact H. Qed.

Lemma wp_gets {A} (f : state -> A) Q s : Q (f s) s -> wp (gets f) Q s.
Proof. intros H. exact H. Qed.

Lemma wp_modify (f : state -> state) Q s : Q tt (f s) -> wp (modify f) Q s.
Proof. intros H. exact H. Qed.

Lemma started_add_stdout l msg s :
  started (add_stdout l msg s)
  = (started s ++ match start_line (l, msg) with
                  | Some n => [n]
                  | None => []
                  end)%list.
Proof.
  unfold started. cbn [stdout add_stdout]. rewrite omap_app. reflexivity.
Qed.

Lemma same_counts_refl r : same_counts r r.
Proof. repeat split. Qed.

Lemma same_counts_trans r1 r2 r3 :
  same_counts r1 r2 -> same_counts r2 r3 -> same_counts r1 r3.
Proof. unfold same_counts. intuition congruence. Qed.

Lemma frame_refl s : frame s s.
Proof. split; try reflexivity. apply same_counts_refl. Qed.

Lemma frame_trans s1 s2 s3 : frame s1 s2 -> frame s2 s3 -> frame s1 s3.
Proof.
  intros [] []. split; try congruence; try (etrans; eassumption).
  eapply same_counts_trans; eassumption.
Qed.

Lemma log_step_refl s : log_step s s.
Proof. split; reflexivity. Qed.

Lemma log_step_trans s1 s2 s3 :
  log_step s1 s2 -> log_step s2 s3 -> log_step s1 s3.
Proof. intros [] []. split; try congruence. etrans; eassumption. Qed.

Lemma log_step_frame s s' : log_step s s' -> frame s s'.
Proof.
  intros []. split; auto.
  - unfold same_counts. rewrite log_results0. repeat split.
  - rewrite log_calls0. reflexivity.
Qed.

(** Steps that preserve a reflexive and transitive relation compose. *)
Section Preserves.

Variable R : state -> state -> Prop.
Hypothesis R_refl : forall s, R s s.
Hypothesis R_trans : forall s1 s2 s3, R s1 s2 -> R s2 s3 -> R s1 s3.

Lemma preserves_ret {A} (a : A) : preserves R (ret a).
Proof. intros s Q H. apply wp_ret, H, R_refl. Qed.

Lemma preserves_gets {A} (f : state -> A) : preserves R (gets f).
Proof. intros s Q H. apply wp_gets, H, R_refl. Qed.

Lemma preserves_bind {A B} (m : M A) (k : A -> M B) :
  preserves R m -> (forall a, preserves R (k a)) -> preserves R (bind m k).
Proof.
  intros Hm Hk s Q H. apply wp_bind, Hm. intros a s1 F1.
  apply Hk. intros b s2 F2. apply H. eapply R_trans; eassumption.
Qed.

Lemma preserves_for_each {A} (xs : list A) (body : A -> M unit) :
  (forall x, preserves R (body x)) -> preserves R (for_each xs body).
Proof.
  intros Hb. induction xs as [|x xs IH]; cbn.
  - apply preserves_ret.
  - apply preserves_bind; [apply Hb | intros _; exact IH].
Qed.

Lemma preserves_for_acc {A B} (xs : list A) (acc : B) (body : A -> B -> M B) :
  (forall x b, preserves R (body x b)) -> preserves R (for_acc xs acc body).
Proof.
  intros Hb. revert acc. induction xs as [|x xs IH]; intros acc; cbn.
  - apply preserves_ret.
  - apply preserves_bind; [apply Hb | intros b; apply IH].
Qed.

End Preserves.

Lemma preserves_weaken {A} (R R' : state -> state -> Prop) (m : M A) :
  (forall s s', R s s' -> R' s s') -> preserves R m -> preserves R' m.
Proof. intros HR Hm s Q H. apply Hm. intros a s' Hs. apply H, HR, Hs. Qed.

Lemma preserves_elim {A} R (m : M A) s :
  preserves R m -> exists a s', m s = (inr a, s') /\ R s s'.
Proof. intros Hm. apply wp_elim, Hm. auto. Qed.

Lemma logging_quiet {A} (m : M A) : logging m -> quiet m.
Proof. apply preserves_weaken, log_step_frame. Qed.

Lemma logging_print l msg :
  start_line (l, msg) = None -> logging (print l msg).
Proof.
  intros Hl s Q H. apply wp_modify, H. split; try reflexivity.
  - rewrite started_add_stdout, Hl. apply app_nil_r.
  - cbn. apply prefix_app_r. reflexivity.
Qed.

Lemma quiet_ret {A} (a : A) : quiet (ret a).
Proof. apply preserves_ret, frame_refl. Qed.

Lemma quiet_gets {A} (f : state -> A) : quiet (gets f).
Proof. apply preserves_gets, frame_refl. Qed.

Lemma quiet_bind {A B} (m : M A) (k : A -> M B) :
  quiet m -> (forall a, quiet (k a)) -> quiet (bind m k).
Proof. apply preserves_bind, frame_trans. Qed.

Lemma quiet_for_each {A} (xs : list A) (body : A -> M unit) :
  (forall x, quiet (body x)) -> quiet (for_each xs body).
Proof. apply preserves_for_each; [apply frame_refl | apply frame_trans]. Qed.

Lemma quiet_for_acc {A B} (xs : list A) (acc : B) (body : A -> B -> M B) :
  (forall x b, quiet (body x b)) -> quiet (for_acc xs acc body).
Proof. apply preserves_for_acc; [apply frame_refl | apply frame_trans]. Qed.

Lemma quiet_print l msg : start_line (l, msg) = None -> quiet (print l msg).
Proof. intros H. apply logging_quiet, logging_print, H. Qed.

Lemma quiet_time_time e : quiet (time_time e).
Proof.
  intros s Q H. apply H. split; try reflexivity. apply same_counts_refl.
Qed.

(** A frame between a state and an explicit update of it. *)
Ltac solve_frame :=
  split; cbn; unfold started; cbn; rewrite ?omap_app; cbn;
  rewrite ?app_nil_r;
  first [ reflexivity | apply same_counts_refl
        | apply prefix_app_r; reflexivity ].

(** ** The methods of [PathValidator] *)

Section Methods.

Variable e : env.

Lemma quiet_log_success msg : quiet (log_success msg).
Proof. apply quiet_print. reflexivity. Qed.

Lemma quiet_log_warning msg : quiet (log_warning msg).
Proof. apply quiet_print. reflexivity. Qed.

Lemma quiet_log_error msg : quiet (log_error msg).
Proof. apply quiet_print. reflexivity. Qed.

Lemma quiet_log_info msg :
  strip_prefix "Running test: " msg = None -> quiet (log_info msg).
Proof. intros H. apply quiet_print. exact H. Qed.

Lemma quiet_log_verbose msg : quiet (log_verbose msg).
Proof.
  unfold log_verbose. apply quiet_bind; [apply quiet_gets|].
  intros [|]; [apply quiet_print; reflexivity | apply quiet_ret].
Qed.

Lemma logging_log_verbose msg : logging (log_verbose msg).
Proof.
  unfold log_verbose.
  apply preserves_bind;
    [apply log_step_trans | apply preserves_gets, log_step_refl|].
  intros [|]; [apply logging_print; reflexivity
              | apply preserves_ret, log_step_refl].
Qed.

Lemma quiet_exists p : quiet (exists_ p).
Proof. apply quiet_gets. Qed.

Lemma quiet_set_performance k v :
  quiet (update_results (set_performance k v)).
Proof.
  intros s Q H. apply wp_modify, H. split; try reflexivity.
  repeat split.
Qed.

(** [run_cargo_command] returns, having started one process; what it
    returns is read off that process's outcome. *)
Lemma wp_run_cargo_command args cwd Q s :
  (forall o s',
      frame s s' ->
      calls s' = (calls s ++ [Call ("cargo" :: args) (cargo_cwd e cwd) o])%list ->
      Q (outcome_ok o, outcome_text o) s') ->
  wp (run_cargo_command e args cwd) Q s.
Proof.
  intros H. unfold wp, run_cargo_command, try_except, bind, subprocess_run.
  fold (cargo_cwd e cwd).
  destruct (spawn e (length (calls s)) ("cargo" :: args) (cargo_cwd e cwd) (fs s))
    as [o f'].
  destruct o as [rc out err | x].
  - cbn. destruct (verbose s) eqn:Hv; cbn.
    + destruct (nonempty (out ++ err)); cbn.
      * unfold log_verbose, bind, gets, print, modify, ret. cbn. rewrite Hv.
        apply (H (Completed rc out err)); [solve_frame | reflexivity].
      * apply (H (Completed rc out err)); [solve_frame | reflexivity].
    + apply (H (Completed rc out err)); [solve_frame | reflexivity].
  - cbn. destruct x as [c msg]. destruct c; cbn;
      match goal with
      | |- Q _ (add_call (Call _ _ ?o) _) => apply (H o)
      end; solve [solve_frame | reflexivity].
Qed.

Lemma quiet_run_cargo_command args cwd : quiet (run_cargo_command e args cwd).
Proof.
  intros s Q H. apply wp_run_cargo_command. intros o s' F _. apply H, F.
Qed.

Lemma start_line_running name :
  start_line (INFO, "Running test: " ++ name) = Some name.
Proof. reflexivity. Qed.

(** [start_test] announces the check and counts it. *)
Lemma wp_start_test name Q s :
  (forall s',
      results s' = incr_total (results s) ->
      verbose s' = verbose s ->
      started s' = (started s ++ [name])%list ->
      stdout s `prefix_of` stdout s' ->
      calls s' = calls s ->
      fs s' = fs s ->
      Q tt s') ->
  wp (start_test name) Q s.
Proof.
  intros H. unfold start_test, log_info. apply wp_bind, wp_modify, wp_modify.
  apply H; try reflexivity.
  - unfold started. cbn. rewrite omap_app. reflexivity.
  - cbn. apply prefix_app_r. reflexivity.
Qed.

(** [complete_test] moves one counter, and on failure appends one entry. *)
Lemma wp_complete_test name (ok : bool) msg Q s :
  (forall s',
      results s' =
        (if ok then incr_passed (results s)
         else append_error (ErrorEntry name msg (clock e (ticks s)))
                           (incr_failed (results s))) ->
      verbose s' = verbose s ->
      started s' = started s ->
      stdout s `prefix_of` stdout s' ->
      calls s' = calls s /\ fs s' = fs s ->
      Q tt s') ->
  wp (complete_test e name ok msg) Q s.
Proof.
  intros H. unfold complete_test. destruct ok.
  - apply wp_bind, wp_modify, wp_modify. apply H; try reflexivity.
    + unfold started. cbn. rewrite omap_app. cbn. apply app_nil_r.
    + cbn. apply prefix_app_r. reflexivity.
    + split; reflexivity.
  - apply wp_bind, wp_modify, wp_bind. unfold wp at 1, time_time.
    apply wp_bind, wp_modify, wp_modify. apply H; try reflexivity.
    + unfold started. cbn. rewrite omap_app. cbn. apply app_nil_r.
    + cbn. apply prefix_app_r. reflexivity.
    + split; reflexivity.
Qed.

Lemma closes_complete name (ok : bool) msg t r :
  closes name ok r
    (if ok then incr_passed r
     else append_error (ErrorEntry name msg t) (incr_failed r)).
Proof.
  unfold closes. destruct ok; cbn; repeat split. eauto.
Qed.

Lemma closes_same_counts name ok r1 r2 r3 :
  same_counts r1 r2 -> closes name ok r2 r3 -> closes name ok r1 r3.
Proof.
  unfold same_counts, closes. intros (Ht & Hp & Hf & He & Hs) (Ht' & Hs' & H).
  rewrite <- Ht, <- Hp, <- Hf, <- He, <- Hs. auto.
Qed.

Lemma finishing_complete name ok msg :
  finishing name (complete_test e name ok msg;; ret ok).
Proof.
  intros s Q H. apply wp_bind, wp_complete_test.
  intros s' Hr Hv Hst Hout [Hc _]. apply wp_ret, H. split; auto.
  - rewrite Hr. apply closes_complete.
  - rewrite Hc. reflexivity.
Qed.

Lemma finishing_bind {A} name (m : M A) (k : A -> M bool) :
  quiet m -> (forall a, finishing name (k a)) -> finishing name (bind m k).
Proof.
  intros Hm Hk s Q H. apply wp_bind, Hm. intros a s1 [Fr Fv Fs Fo Fc].
  apply Hk. intros b s2 [Cr Cv Cs Co Cc]. apply H. split.
  - eapply closes_same_counts; eassumption.
  - congruence.
  - congruence.
  - etrans; eassumption.
  - etrans; eassumption.
Qed.

Lemma check_start name (body : M bool) :
  finishing name body -> check name (start_test name;; body).
Proof.
  intros Hb s Q H. apply wp_bind, wp_start_test.
  intros s1 Hr Hv Hs Ho Hc _. apply Hb. intros b s2 [Cr Cv Cs Co Cc].
  apply H. split.
  - unfold recorded. rewrite <- Hr. exact Cr.
  - congruence.
  - congruence.
  - etrans; eassumption.
  - rewrite <- Hc. exact Cc.
Qed.

(** One tactic walks a method: quiet steps up to [complete_test]. *)
Ltac quiet_step :=
  first [ apply quiet_log_verbose | apply quiet_log_warning
        | apply quiet_log_success | apply quiet_log_error
        | apply quiet_run_cargo_command | apply quiet_exists
        | apply quiet_time_time | apply quiet_set_performance
        | apply quiet_gets | apply quiet_ret ].

Ltac quiet_walk :=
  repeat first
    [ quiet_step
    | apply quiet_bind; [|intros]
    | apply quiet_for_each; intros
    | apply quiet_for_acc; intros
    | match goal with
      | |- quiet (let '(_, _) := ?p in _) => destruct p
      | |- quiet (if negb ?b then _ else _) => destruct b; cbn [negb]
      | |- quiet (if ?b then _ else _) => destruct b
      end ].

Ltac finish_walk :=
  repeat first
    [ apply finishing_complete
    | apply finishing_bind; [solve [quiet_walk] | intros]
    | match goal with
      | |- finishing _ (let '(_, _) := ?p in _) => destruct p
      | |- finishing _ (if negb ?b then _ else _) => destruct b; cbn [negb]
      | |- finishing _ (if ?b then _ else _) => destruct b
      end ].

Lemma check_test_basic_compilation :
  check "Basic Compilation" (test_basic_compilation e).
Proof. apply check_start. finish_walk. Qed.

Lemma check_test_unit_tests : check "Unit Tests" (test_unit_tests e).
Proof. apply check_start. finish_walk. Qed.

Lemma check_test_integration_tests :
  check "Integration Tests" (test_integration_tests e).
Proof. apply check_start. finish_walk. Qed.

Lemma check_test_git_bash_specific :
  check "Git Bash Path Handling" (test_git_bash_specific e).
Proof. apply check_start. finish_walk. Qed.

Lemma check_test_performance iterations :
  check "Performance Tests" (test_performance e iterations).
Proof. apply check_start. finish_walk. Qed.

Lemma check_test_examples : check "Example Programs" (test_examples e).
Proof. apply check_start. finish_walk. Qed.

Lemma check_test_documentation :
  check "Documentation Tests" (test_documentation e).
Proof. apply check_start. finish_walk. Qed.

Lemma check_test_executable_paths :
  check "Executable Path Reporting" (test_executable_paths e).
Proof. apply check_start. finish_walk. Qed.

Lemma check_validate_path_patterns :
  check "Path Pattern Validation" (validate_path_patterns e).
Proof. apply check_start. finish_walk. Qed.

End Methods.

(** ** The suite *)

Lemma bind_run {A B} (m : M A) (k : A -> M B) s a s1 :
  m s = (inr a, s1) -> bind m k s = k a s1.
Proof. intros H. unfold bind. rewrite H. reflexivity. Qed.

Lemma bind_raise {A B} (m : M A) (k : A -> M B) s x s1 :
  m s = (inl x, s1) -> bind m k s = (inl x, s1).
Proof. intros H. unfold bind. rewrite H. reflexivity. Qed.

Lemma bind_ext {A B} (m : M A) (k1 k2 : A -> M B) s :
  (forall a s', k1 a s' = k2 a s') -> bind m k1 s = bind m k2 s.
Proof.
  intros H. unfold bind. destruct (m s) as [[x|a] s']; [reflexivity | apply H].
Qed.

Lemma bind_assoc {A B C} (m : M A) (k1 : A -> M B) (k2 : B -> M C) s :
  bind (bind m k1) k2 s = bind m (fun a => bind (k1 a) k2) s.
Proof. unfold bind. destruct (m s) as [[x|a] s']; reflexivity. Qed.

Lemma bind_ret {A B} (a : A) (k : A -> M B) s : bind (ret a) k s = k a s.
Proof. reflexivity. Qed.

Lemma bind_modify {B} f (k : unit -> M B) s :
  bind (modify f) k s = k tt (f s).
Proof. reflexivity. Qed.

Lemma bind_gets {A B} (f : state -> A) (k : A -> M B) s :
  bind (gets f) k s = k (f s) s.
Proof. reflexivity. Qed.

Lemma log_step_add_stdout l msg s :
  start_line (l, msg) = None -> log_step s (add_stdout l msg s).
Proof.
  intros Hl. split; try reflexivity.
  - rewrite started_add_stdout, Hl. apply app_nil_r.
  - cbn. apply prefix_app_r. reflexivity.
Qed.

Lemma log_step_suite_header e s : log_step s (suite_header e s).
Proof.
  unfold suite_header.
  repeat (eapply log_step_trans; [|apply log_step_add_stdout; reflexivity]).
  apply log_step_refl.
Qed.

(** With the library root present, the suite is its list of checks. *)
Lemma run_validation_suite_checks e performance git_bash full_suite iterations s :
  path_exists (fs s) (winpath_dir e) = true ->
  run_validation_suite e performance git_bash full_suite iterations s
  = run_checks
      (List.map snd (suite_checks e performance git_bash full_suite iterations))
      true (suite_header e s).
Proof.
  intros Hroot. unfold run_validation_suite, log_info, print.
  rewrite !bind_modify. fold (suite_header e s).
  unfold exists_. rewrite bind_gets. cbn [fs suite_header add_stdout].
  rewrite Hroot. cbn [negb]. fold (suite_header e s). unfold suite_checks. cbn [List.map app snd run_checks].
  do 6 (apply bind_ext; intros ? ?).
  destruct (git_bash || full_suite); cbn [List.map app snd run_checks].
  - rewrite bind_assoc. apply bind_ext; intros ? ?. rewrite bind_ret.
    destruct (performance || full_suite); cbn [List.map app snd run_checks].
    + rewrite bind_assoc. apply bind_ext; intros ? ?. rewrite bind_ret.
      reflexivity.
    + rewrite bind_ret. reflexivity.
  - rewrite bind_ret.
    destruct (performance || full_suite); cbn [List.map app snd run_checks].
    + rewrite bind_assoc. apply bind_ext; intros ? ?. rewrite bind_ret.
      reflexivity.
    + rewrite bind_ret. reflexivity.
Qed.

(** With the library root missing, the suite logs an error and stops. *)
Lemma run_validation_suite_missing e performance git_bash full_suite iterations s :
  path_exists (fs s) (winpath_dir e) = false ->
  run_validation_suite e performance git_bash full_suite iterations s
  = (inr false,
     add_stdout ERROR
       ("WinPath directory not found: " ++ path_str (winpath_dir e))
       (suite_header e s)).
Proof.
  intros Hroot. unfold run_validation_suite, log_info, print.
  rewrite !bind_modify. fold (suite_header e s).
  unfold exists_. rewrite bind_gets. cbn [fs suite_header add_stdout].
  rewrite Hroot. reflexivity.
Qed.

Lemma recorded_balanced name ok r r' :
  recorded name ok r r' -> balanced r -> balanced r'.
Proof.
  unfold recorded, closes, balanced. cbn. intros (Ht & _ & H) Hb.
  destruct ok; destruct H as (Hp & Hf & _); lia.
Qed.

Lemma recorded_errors_counted name ok r r' :
  recorded name ok r r' -> errors_counted r -> errors_counted r'.
Proof.
  unfold recorded, closes, errors_counted. cbn. intros (_ & _ & H) Hc.
  destruct ok.
  - destruct H as (_ & Hf & He). rewrite He, Hf. exact Hc.
  - destruct H as (_ & Hf & msg & t & He). rewrite He, Hf, length_app.
    cbn. lia.
Qed.

Lemma suite_done_nil s : suite_done [] s s.
Proof.
  split; auto; try reflexivity.
  - symmetry. apply app_nil_r.
  - cbn. lia.
Qed.

Lemma suite_done_app n1 n2 s1 s2 s3 :
  suite_done n1 s1 s2 -> suite_done n2 s2 s3 -> suite_done (n1 ++ n2) s1 s3.
Proof.
  intros [] []. split; auto; try congruence; try (etrans; eassumption).
  - rewrite done_started1, done_started0. symmetry. apply app_assoc.
  - rewrite done_total1, done_total0, length_app. lia.
Qed.

Lemma checked_suite_done name s ok s' :
  checked name s ok s' -> suite_done [name] s s'.
Proof.
  intros [Hr Hv Hs Ho Hc]. split; auto.
  - destruct Hr as (Ht & _). rewrite Ht. cbn. lia.
  - eapply recorded_balanced, Hr.
  - eapply recorded_errors_counted, Hr.
  - destruct Hr as (_ & Hst & _). exact Hst.
Qed.

Lemma log_step_suite_done s s' : log_step s s' -> suite_done [] s s'.
Proof.
  intros []. split; try congruence.
  - rewrite log_started0. symmetry. apply app_nil_r.
  - rewrite log_results0. cbn. lia.
  - rewrite log_calls0. reflexivity.
Qed.

(** Going through a list of checks, one after the other. *)
Lemma run_checks_done (cs : list (string * M bool)) success s Q :
  Forall (fun c => check (fst c) (snd c)) cs ->
  (forall r s', suite_done (List.map fst cs) s s' -> Q r s') ->
  wp (run_checks (List.map snd cs) success) Q s.
Proof.
  intros Hcs. revert success s Q.
  induction Hcs as [|[name m] cs Hm Hcs IH]; intros success s Q H; cbn.
  - apply wp_ret, H, suite_done_nil.
  - apply wp_bind, Hm. intros b s1 H1. apply IH. intros r s2 H2.
    apply H. apply (suite_done_app [name] _ s s1 s2); [|exact H2].
    eapply checked_suite_done, H1.
Qed.

Lemma suite_checks_check e performance git_bash full_suite iterations :
  Forall (fun c => check (fst c) (snd c))
         (suite_checks e performance git_bash full_suite iterations).
Proof.
  unfold suite_checks.
  repeat first [ apply Forall_app; split | apply Forall_cons; split
               | apply Forall_nil | destruct (_ || _) ]; cbn [fst snd].
  all: auto using check_test_basic_compilation, check_test_unit_tests,
    check_test_integration_tests, check_test_examples,
    check_test_documentation, check_validate_path_patterns,
    check_test_git_bash_specific, check_test_performance,
    check_test_executable_paths.
Qed.

(** The whole suite, with the library root present. *)
Lemma run_validation_suite_done e performance git_bash full_suite iterations s Q :
  path_exists (fs s) (winpath_dir e) = true ->
  (forall r s',
      suite_done
        (List.map fst
           (suite_checks e performance git_bash full_suite iterations))
        s s' -> Q r s') ->
  wp (run_validation_suite e performance git_bash full_suite iterations) Q s.
Proof.
  intros Hroot H. unfold wp.
  rewrite run_validation_suite_checks by exact Hroot.
  apply run_checks_done; [apply suite_checks_check|].
  intros r s' Hd. apply H.
  apply (suite_done_app [] _ s (suite_header e s) s'); [|exact Hd].
  apply log_step_suite_done, log_step_suite_header.
Qed.

(** ** The report *)

Lemma logging_ret {A} (a : A) : logging (ret a).
Proof. apply preserves_ret, log_step_refl. Qed.

Lemma logging_bind {A B} (m : M A) (k : A -> M B) :
  logging m -> (forall a, logging (k a)) -> logging (bind m k).
Proof. apply preserves_bind, log_step_trans. Qed.

Lemma logging_for_each {A} (xs : list A) (body : A -> M unit) :
  (forall x, logging (body x)) -> logging (for_each xs body).
Proof.
  apply preserves_for_each; [apply log_step_refl | apply log_step_trans].
Qed.

Ltac logging_walk :=
  repeat first
    [ apply logging_ret
    | apply logging_print; reflexivity
    | apply logging_bind; [|intros]
    | apply logging_for_each; intros
    | match goal with
      | |- logging (let '(_, _) := ?p in _) => destruct p
      | |- logging (if ?b then _ else _) => destruct b
      | |- logging (match ?l with [] => _ | _ :: _ => _ end) => destruct l
      end ].

Lemma bind_time_time {B} e (k : Z -> M B) s :
  bind (time_time e) k s = k (clock e (ticks s)) (tick s).
Proof. reflexivity. Qed.

(** What [generate_report] returns and leaves behind: the record is not
    touched; the file is written when it can be opened, and otherwise the
    call raises and the filesystem is as before. *)
Lemma generate_report_run e out s :
  exists res s',
    generate_report e out s = (res, s') /\
    results s' = results s /\ verbose s' = verbose s /\
    calls s' = calls s /\ started s' = started s /\
    stdout s `prefix_of` stdout s' /\
    match out with
    | Some p =>
        if can_open_w (fs s) p then
          res = inr (failed_tests (results s) =? 0)%Z /\
          fs s' = <[p := File (report_data (results s)
                                 (clock e (ticks s) - start_time (results s))
                                 (clock e (ticks s)))]> (fs s)
        else (exists x, res = inl x) /\ fs s' = fs s
    | None =>
        res = inr (failed_tests (results s) =? 0)%Z /\ fs s' = fs s
    end.
Proof.
  unfold generate_report. rewrite bind_time_time, bind_gets.
  cbn [results tick]. unfold log_info, log_success, log_error.
  set (t := clock e (ticks s)). set (r := results s).
  unfold print at 1 2 3 4. rewrite !bind_modify.
  match goal with
  | |- exists _ _, bind _ _ ?s0 = _ /\ _ =>
      let x := fresh "s" in
      set (x := s0);
      assert (L0 : log_step (tick s) x)
        by (subst x;
            repeat (eapply log_step_trans;
                    [|apply log_step_add_stdout; reflexivity]);
            apply log_step_refl);
      clearbody x
  end.
  do 2 match goal with
  | |- exists _ _, bind ?m ?k ?s1 = _ /\ _ =>
      let a := fresh "a" in let s2 := fresh "s" in
      let E := fresh "E" in let L := fresh "L" in
      assert (Hm : logging m) by logging_walk;
      destruct (preserves_elim log_step m s1 Hm) as (a & s2 & E & L);
      clear Hm; rewrite (bind_run m k s1 a s2 E); clear E;
      pose proof (log_step_trans _ _ _ L0 L) as L'; clear L0 L;
      rename L' into L0
  end.
  destruct L0 as [Lr Lv Lf Lc Lt Ls Lo]. cbn in Lr, Lv, Lf, Lc, Ls, Lo.
  destruct out as [p|].
  - rewrite bind_assoc. unfold bind at 1, write_json, can_open_w.
    rewrite Lf. destruct (is_dir (fs s) p) eqn:Hp.
    + rewrite andb_false_r. eexists _, _. split; [reflexivity|].
      repeat split; eauto.
    + destruct (is_dir (fs s) (parent p)) eqn:Hpar; cbn [andb negb].
      * eexists _, _. split; [reflexivity|]. cbn.
        repeat split; auto.
        -- unfold started in *. cbn. rewrite omap_app. cbn.
           rewrite app_nil_r. exact Ls.
        -- apply prefix_app_r. exact Lo.
      * eexists _, _. split; [reflexivity|]. repeat split; eauto.
  - eexists _, _. split; [reflexivity|]. repeat split; auto.
Qed.

(** * The claims *)

(** The record [__init__] builds satisfies both invariants, whether or not
    the [mkdir] that follows goes through. *)
Lemma init_record e v s0 r s :
  init e v s0 = (r, s) ->
  results s = TestResults 0 0 0 [] ∅ (clock e (ticks s0)).
Proof.
  unfold init. rewrite bind_time_time, bind_modify. unfold mkdir_exist_ok.
  cbn [fs tick]. intros H.
  repeat match type of H with
         | (if ?c then _ else _) = _ => destruct c
         end; inversion H; reflexivity.
Qed.

Lemma wp_run_validation_suite_inv e performance git_bash full_suite iterations
      (I : test_results -> Prop) s :
  (forall name ok r r', recorded name ok r r' -> I r -> I r') ->
  I (results s) ->
  wp (run_validation_suite e performance git_bash full_suite iterations)
     (fun _ s' => I (results s')) s.
Proof.
  intros Hstep HI. destruct (path_exists (fs s) (winpath_dir e)) eqn:Hroot.
  - unfold wp. rewrite run_validation_suite_checks by exact Hroot.
    assert (HI' : I (results (suite_header e s))) by exact HI.
    generalize (suite_checks_check e performance git_bash full_suite iterations).
    generalize (suite_checks e performance git_bash full_suite iterations).
    generalize (suite_header e s) true HI'. clear HI HI' Hroot.
    intros s0 b HI cs Hcs. revert s0 b HI.
    induction Hcs as [|[name m] cs Hm Hcs IH]; intros s0 b HI; cbn.
    + exact HI.
    + apply wp_bind, Hm. intros ok s1 [Hr _ _ _ _]. apply IH.
      eapply Hstep; eassumption.
  - unfold wp. rewrite run_validation_suite_missing by exact Hroot. exact HI.
Qed.

Lemma report_data_balanced r d t :
  balanced r -> report_balanced (Some (File (report_data r d t))).
Proof.
  intros H. exists (report_data r d t), (total_tests r), (passed_tests r),
    (failed_tests r). repeat split; auto.
Qed.

(** C1. Starting from a record whose counters add up (the one [__init__]
    builds does): after every check of the suite has completed, that is
    after each of its [complete_test] calls, [total_tests] equals
    [passed_tests + failed_tests]; the same holds when the suite returns,
    and after [generate_report], both in memory and in the summary of the
    report it wrote. *)
Theorem C1_total_is_passed_plus_failed
        e performance git_bash full_suite iterations s :
  balanced (results s) ->
  (forall done,
      done `prefix_of` suite_checks e performance git_bash full_suite iterations ->
      wp (run_checks (List.map snd done) true)
         (fun _ s' => balanced (results s')) (suite_header e s))
  /\
  wp (run_validation_suite e performance git_bash full_suite iterations)
     (fun _ s1 =>
        balanced (results s1) /\
        forall out res s2,
          generate_report e out s1 = (res, s2) ->
          balanced (results s2) /\
          forall p b, out = Some p -> res = inr b ->
                      report_balanced (fs s2 !! p))
     s.
Proof.
  intros Hb. split.
  - intros done [rest Hrest].
    pose proof (suite_checks_check e performance git_bash full_suite iterations)
      as Hall.
    rewrite Hrest in Hall. apply Forall_app in Hall as [Hdone _].
    apply run_checks_done; [exact Hdone|]. intros r s' Hd.
    apply (done_balanced _ _ _ Hd). exact Hb.
  - eapply wp_mono.
    + apply (wp_run_validation_suite_inv _ _ _ _ _ balanced);
        [apply recorded_balanced | exact Hb].
    + cbn beta. intros _ s1 H1. split; [exact H1|]. intros out res s2 Hrep.
      destruct (generate_report_run e out s1)
        as (res' & s2' & Heq & Hr & _ & _ & _ & _ & Hout).
      rewrite Hrep in Heq. inversion Heq; subst res' s2'. clear Heq.
      split; [rewrite Hr; exact H1|]. intros p b -> ->.
      destruct (can_open_w (fs s1) p).
      * destruct Hout as [_ ->]. rewrite lookup_insert_eq.
        apply report_data_balanced, H1.
      * destruct Hout as [[x Hx] _]. discriminate Hx.
Qed.

Lemma C1_witness :
  balanced (results (demo_init [] demo_fs)) /\
  wp (run_validation_suite (demo_env []) false true false 1000)
     (fun _ s1 => balanced (results s1)) (demo_init [] demo_fs).
Proof.
  split; [reflexivity|].
  exact (wp_mono _ _ _ _
           (proj2 (C1_total_is_passed_plus_failed
                     (demo_env []) false true false 1000
                     (demo_init [] demo_fs) eq_refl))
           (fun _ _ H => proj1 H)).
Defined.

Lemma complete_test_errors_counted e name ok msg s :
  errors_counted (results s) ->
  wp (complete_test e name ok msg)
     (fun _ s' => errors_counted (results s')) s.
Proof.
  intros H. apply wp_complete_test. intros s' Hr _ _ _ _. rewrite Hr.
  unfold errors_counted in *. destruct ok; cbn; [exact H|].
  rewrite length_app. cbn. lia.
Qed.

(** C7. Starting from a record whose error list is as long as
    [failed_tests] (the one [__init__] builds is): after any sequence of
    [complete_test] calls the two still agree; a failing completion appends
    exactly one entry [{test, error, time}] and counts one failure, a
    passing one leaves both alone; and the same agreement holds when the
    suite returns. *)
Theorem C7_errors_length_is_failed e s :
  errors_counted (results s) ->
  (forall completions : list (string * bool * string),
      wp (for_each completions
                   (fun c => complete_test e (fst (fst c)) (snd (fst c)) (snd c)))
         (fun _ s' => errors_counted (results s')) s)
  /\
  (forall name msg,
      wp (complete_test e name false msg)
         (fun _ s' =>
            errors (results s')
            = (errors (results s)
               ++ [ErrorEntry name msg (clock e (ticks s))])%list /\
            failed_tests (results s') = failed_tests (results s) + 1)
         s)
  /\
  (forall name msg,
      wp (complete_test e name true msg)
         (fun _ s' =>
            errors (results s') = errors (results s) /\
            failed_tests (results s') = failed_tests (results s))
         s)
  /\
  (forall performance git_bash full_suite iterations,
      wp (run_validation_suite e performance git_bash full_suite iterations)
         (fun _ s' => errors_counted (results s')) s).
Proof.
  intros H. split; [|split; [|split]].
  - intros completions. revert s H.
    induction completions as [|[[name ok] msg] rest IH]; intros s H; cbn.
    + exact H.
    + apply wp_bind. eapply wp_mono.
      * apply complete_test_errors_counted, H.
      * cbn beta. intros _ s' H'. apply IH, H'.
  - intros name msg. apply wp_complete_test. intros s' Hr _ _ _ _.
    rewrite Hr. split; reflexivity.
  - intros name msg. apply wp_complete_test. intros s' Hr _ _ _ _.
    rewrite Hr. split; reflexivity.
  - intros performance git_bash full_suite iterations.
    apply (wp_run_validation_suite_inv _ _ _ _ _ errors_counted);
      [apply recorded_errors_counted | exact H].
Qed.

Lemma C7_witness :
  errors_counted (results (demo_init [] demo_fs)) /\
  wp (for_each [("Unit Tests", false, "Unit tests failed: x");
                ("Documentation Tests", true, "")]
               (fun c => complete_test (demo_env []) (fst (fst c))
                                       (snd (fst c)) (snd c)))
     (fun _ s' => errors_counted (results s')) (demo_init [] demo_fs).
Proof.
  split; [reflexivity|].
  exact (proj1 (C7_errors_length_is_failed (demo_env []) (demo_init [] demo_fs)
                                           eq_refl) _).
Defined.

Lemma suite_checks_names e performance git_bash full_suite iterations :
  List.map fst (suite_checks e performance git_bash full_suite iterations)
  = (["Basic Compilation"; "Unit Tests"; "Integration Tests";
      "Example Programs"; "Documentation Tests"; "Path Pattern Validation"]
     ++ (if git_bash || full_suite then ["Git Bash Path Handling"] else [])
     ++ (if performance || full_suite then ["Performance Tests"] else [])
     ++ ["Executable Path Reporting"])%list.
Proof.
  unfold suite_checks.
  destruct (git_bash || full_suite), (performance || full_suite); reflexivity.
Qed.

(** C6. When the library root exists (so that the suite gets to its
    checks), for every combination of flags: the checks the suite starts,
    each counted once in [total_tests], include the Git-Bash check if and
    only if [git_bash] or [full_suite] is set, and the performance check if
    and only if [performance] or [full_suite] is set. *)
Theorem C6_optional_checks_gated
        e performance git_bash full_suite iterations s :
  path_exists (fs s) (winpath_dir e) = true ->
  wp (run_validation_suite e performance git_bash full_suite iterations)
     (fun _ s' =>
        exists ran,
          started s' = (started s ++ ran)%list /\
          total_tests (results s')
          = total_tests (results s) + Z.of_nat (length ran) /\
          (In "Git Bash Path Handling" ran <-> git_bash || full_suite = true) /\
          (In "Performance Tests" ran <-> performance || full_suite = true) /\
          Z.of_nat (length ran)
          = 7 + Z.b2z (git_bash || full_suite)
            + Z.b2z (performance || full_suite))
     s.
Proof.
  intros Hroot. apply run_validation_suite_done; [exact Hroot|].
  intros r s' Hd.
  exists (List.map fst
            (suite_checks e performance git_bash full_suite iterations)).
  split; [apply (done_started _ _ _ Hd)|].
  split; [apply (done_total _ _ _ Hd)|].
  rewrite suite_checks_names.
  destruct (git_bash || full_suite), (performance || full_suite);
    cbn [app length In Z.b2z];
    (split; [|split]);
    first [ reflexivity
          | split; intros H;
            first [ reflexivity
                  | repeat first [left; reflexivity | right]; fail
                  | discriminate H
                  | repeat (destruct H as [H|H]; [discriminate H|]);
                    destruct H ] ].
Qed.

Lemma C6_witness :
  path_exists (fs (demo_init [] demo_fs)) (winpath_dir (demo_env [])) = true /\
  wp (run_validation_suite (demo_env []) false true false 1000)
     (fun _ s' =>
        exists ran,
          started s' = (started (demo_init [] demo_fs) ++ ran)%list /\
          total_tests (results s')
          = total_tests (results (demo_init [] demo_fs))
            + Z.of_nat (length ran) /\
          (In "Git Bash Path Handling" ran <-> true || false = true) /\
          (In "Performance Tests" ran <-> false || false = true) /\
          Z.of_nat (length ran)
          = 7 + Z.b2z (true || false) + Z.b2z (false || false))
     (demo_init [] demo_fs).
Proof.
  split; [reflexivity|].
  exact (C6_optional_checks_gated (demo_env []) false true false 1000
                                  (demo_init [] demo_fs) eq_refl).
Defined.

(** C8. [run_cargo_command] never raises to its caller, whatever the
    process does: a timeout gives failure with the text "Command timed
    out", any other exception gives failure with the exception's message,
    a completed process gives its combined standard output and standard
    error, with success exactly when the return code is zero. *)
Theorem C8_run_cargo_command_never_raises e args cwd s :
  exists ok text s',
    run_cargo_command e args cwd s = (inr (ok, text), s') /\
    match fst (spawn e (length (calls s)) ("cargo" :: args)
                     (cargo_cwd e cwd) (fs s)) with
    | Raised (Exn TimeoutExpired _) =>
        ok = false /\ text = "Command timed out"
    | Raised (Exn _ msg) => ok = false /\ text = msg
    | Completed rc out err =>
        (rc = 0 -> ok = true) /\ (rc <> 0 -> ok = false) /\
        text = out ++ err
    end.
Proof.
  unfold run_cargo_command, try_except, bind, subprocess_run.
  fold (cargo_cwd e cwd).
  destruct (spawn e (length (calls s)) ("cargo" :: args) (cargo_cwd e cwd) (fs s))
    as [o f'].
  cbn [fst]. destruct o as [rc out err | [c msg]].
  - assert (Hrc : (rc = 0 -> (rc =? 0)%Z = true) /\
                  (rc <> 0 -> (rc =? 0)%Z = false) /\
                  out ++ err = out ++ err).
    { split; [|split]; [intros ->; reflexivity | apply Z.eqb_neq | reflexivity]. }
    cbn. destruct (verbose s) eqn:Hv; cbn.
    + destruct (nonempty (out ++ err)); cbn.
      * unfold log_verbose, bind, gets, print, modify, ret. cbn. rewrite Hv.
        eexists _, _, _. split; [reflexivity | exact Hrc].
      * eexists _, _, _. split; [reflexivity | exact Hrc].
    + eexists _, _, _. split; [reflexivity | exact Hrc].
  - destruct c; cbn; eexists _, _, _; (split; [reflexivity|]); split; reflexivity.
Qed.

(** ** Single checks in detail *)

Lemma one_pass_intro s s1 s2 s3 :
  results s1 = incr_total (results s) ->
  same_counts (results s1) (results s2) ->
  results s3 = incr_passed (results s2) ->
  one_pass s s3.
Proof.
  intros H1 (Ht & Hp & Hf & He & _) H3. unfold one_pass.
  rewrite H3. cbn. rewrite Ht, Hp, Hf, He, H1. cbn. auto.
Qed.

Lemma one_failure_intro name msg t s s1 s2 s3 :
  results s1 = incr_total (results s) ->
  same_counts (results s1) (results s2) ->
  results s3 = append_error (ErrorEntry name msg t) (incr_failed (results s2)) ->
  one_failure name s s3.
Proof.
  intros H1 (Ht & Hp & Hf & He & _) H3. unfold one_failure.
  rewrite H3. cbn. rewrite Ht, Hp, Hf, He, H1. cbn. eauto 6.
Qed.

Lemma In_prefix {A} (x : A) (l1 l2 : list A) :
  l1 `prefix_of` l2 -> In x l1 -> In x l2.
Proof. intros [k ->] H. apply in_or_app. left. exact H. Qed.

Lemma In_add_stdout l msg s : In (l, msg) (stdout (add_stdout l msg s)).
Proof. cbn. apply in_or_app. right. left. reflexivity. Qed.

(** The executable-path check: it always passes; it runs its one cargo
    command in the project root exactly when the tests directory exists,
    and a failure of that command only shows as a warning. *)
Lemma wp_test_executable_paths e s :
  wp (test_executable_paths e)
     (fun b s' =>
        b = true /\ one_pass s s' /\
        (path_exists (fs s) (child (project_root e) "tests") = false ->
         calls s' = calls s) /\
        (path_exists (fs s) (child (project_root e) "tests") = true ->
         exists c,
           calls s' = (calls s ++ [c])%list /\
           invoked c ["test"; "--test"; "executable_path_tests"]
                   (project_root e) /\
           (call_ok c = false ->
            In (WARNING,
                "Executable path tests had issues: "
                ++ str_take 200 (call_text c) ++ "...")
               (stdout s'))))
     s.
Proof.
  unfold test_executable_paths.
  apply wp_bind, wp_start_test. intros s1 Hr1 Hv1 Hst1 Ho1 Hc1 Hf1.
  apply wp_bind. unfold exists_. apply wp_gets. rewrite Hf1.
  destruct (path_exists (fs s) (child (project_root e) "tests")) eqn:Hp.
  - apply wp_bind, wp_bind, logging_log_verbose. intros _ s2 L2.
    apply wp_bind, wp_run_cargo_command. intros o s3 F3 Hc3.
    cbv beta iota. destruct (outcome_ok o) eqn:Hok; cbn [negb].
    + apply wp_ret, wp_bind, wp_complete_test.
      intros s4 Hr4 _ _ Ho4 [Hc4 _]. apply wp_ret.
      split; [reflexivity|]. split; [|split; [discriminate|]].
      * eapply (one_pass_intro s s1 s3 s4); eauto.
        eapply same_counts_trans;
          [apply (frame_results _ _ (log_step_frame _ _ L2))
          | apply (frame_results _ _ F3)].
      * intros _. eexists.
        split; [rewrite Hc4, Hc3, (log_calls _ _ L2), Hc1; reflexivity|].
        split; [split; reflexivity|].
        unfold call_ok. cbn. rewrite Hok. discriminate.
    + unfold log_warning, print. apply wp_modify, wp_bind, wp_complete_test.
      intros s4 Hr4 _ _ Ho4 [Hc4 _]. apply wp_ret.
      split; [reflexivity|]. split; [|split; [discriminate|]].
      * eapply (one_pass_intro s s1 s3 s4); eauto.
        eapply same_counts_trans;
          [apply (frame_results _ _ (log_step_frame _ _ L2))
          | apply (frame_results _ _ F3)].
      * intros _. eexists.
        split; [rewrite Hc4; cbn; rewrite Hc3, (log_calls _ _ L2), Hc1;
                reflexivity|].
        split; [split; reflexivity|].
        intros _. eapply In_prefix; [exact Ho4|]. apply In_add_stdout.
  - apply wp_bind, wp_ret, wp_bind, wp_complete_test.
    intros s4 Hr4 _ _ Ho4 [Hc4 _]. apply wp_ret.
    split; [reflexivity|]. split; [|split; [|discriminate]].
    + eapply (one_pass_intro s s1 s1 s4); eauto. apply same_counts_refl.
    + intros _. rewrite Hc4, Hc1. reflexivity.
Qed.

(** The examples check with no examples directory: it passes and starts no
    process. *)
Lemma wp_test_examples_absent e s :
  path_exists (fs s) (child (winpath_dir e) "examples") = false ->
  wp (test_examples e)
     (fun b s' => b = true /\ one_pass s s' /\ calls s' = calls s) s.
Proof.
  intros Hp. unfold test_examples.
  apply wp_bind, wp_start_test. intros s1 Hr1 Hv1 Hst1 Ho1 Hc1 Hf1.
  apply wp_bind. unfold exists_. apply wp_gets. rewrite Hf1, Hp. cbn [negb].
  unfold log_warning, print. apply wp_bind, wp_modify, wp_bind, wp_complete_test.
  intros s4 Hr4 _ _ Ho4 [Hc4 _]. apply wp_ret.
  split; [reflexivity|]. split.
  - eapply (one_pass_intro s s1 _ s4); eauto. apply same_counts_refl.
  - rewrite Hc4. cbn. exact Hc1.
Qed.

(** C9. A skippable step whose directory is absent contributes a passing
    result and runs nothing: with no [examples] directory the Example
    Programs check returns true, counts one passed check and starts no
    process; with no [tests] directory the Executable Path Reporting check
    does the same. *)
Theorem C9_absent_directories_pass e s :
  (path_exists (fs s) (child (winpath_dir e) "examples") = false ->
   wp (test_examples e)
      (fun b s' => b = true /\ one_pass s s' /\ calls s' = calls s) s)
  /\
  (path_exists (fs s) (child (project_root e) "tests") = false ->
   wp (test_executable_paths e)
      (fun b s' => b = true /\ one_pass s s' /\ calls s' = calls s) s).
Proof.
  split.
  - apply wp_test_examples_absent.
  - intros Hp. eapply wp_mono; [apply wp_test_executable_paths|].
    cbn beta. intros b s' (Hb & H1 & Hno & _). auto.
Qed.

Lemma C9_witness :
  path_exists (fs (demo_init [] demo_fs))
              (child (winpath_dir (demo_env [])) "examples") = false /\
  path_exists (fs (demo_init [] demo_fs))
              (child (project_root (demo_env [])) "tests") = false /\
  wp (test_examples (demo_env []))
     (fun b s' => b = true /\ one_pass (demo_init [] demo_fs) s'
                  /\ calls s' = calls (demo_init [] demo_fs))
     (demo_init [] demo_fs) /\
  wp (test_executable_paths (demo_env []))
     (fun b s' => b = true /\ one_pass (demo_init [] demo_fs) s'
                  /\ calls s' = calls (demo_init [] demo_fs))
     (demo_init [] demo_fs).
Proof.
  exact (conj eq_refl
           (conj eq_refl
              (conj (proj1 (C9_absent_directories_pass
                              (demo_env []) (demo_init [] demo_fs)) eq_refl)
                    (proj2 (C9_absent_directories_pass
                              (demo_env []) (demo_init [] demo_fs)) eq_refl)))).
Defined.

(** C10. The Executable Path Reporting check returns true and records a
    pass on every run: also when the tests directory exists and its cargo
    command (run in the project root) fails, by a non-zero exit, a timeout
    or another exception.  Such a failure only adds a warning line to the
    output; [failed_tests] and the error list stay as they were. *)
Theorem C10_executable_paths_always_pass e s :
  wp (test_executable_paths e)
     (fun b s' =>
        b = true /\
        passed_tests (results s') = passed_tests (results s) + 1 /\
        failed_tests (results s') = failed_tests (results s) /\
        errors (results s') = errors (results s) /\
        forall c,
          calls s' = (calls s ++ [c])%list ->
          call_ok c = false ->
          invoked c ["test"; "--test"; "executable_path_tests"]
                  (project_root e) /\
          In (WARNING,
              "Executable path tests had issues: "
              ++ str_take 200 (call_text c) ++ "...")
             (stdout s'))
     s.
Proof.
  eapply wp_mono; [apply wp_test_executable_paths|].
  cbn beta. intros b s' (Hb & (_ & Hp & Hf & He) & Hno & Hyes).
  repeat (split; [assumption|]). intros c Hc Hfail.
  destruct (path_exists (fs s) (child (project_root e) "tests")).
  - destruct (Hyes eq_refl) as (c' & Hc' & Hinv & Hwarn).
    rewrite Hc in Hc'. apply app_inj_tail in Hc' as [_ <-]. auto.
  - rewrite (Hno eq_refl) in Hc. exfalso.
    apply (f_equal (@length call)) in Hc. rewrite length_app in Hc.
    cbn in Hc. lia.
Qed.

(** One round of the loop over the test files of the integration check. *)
Lemma wp_integration_round e test_file (all_passed : bool) Q s :
  (forall c s',
      frame s s' ->
      calls s' = (calls s ++ [c])%list ->
      sub_suite_logged (winpath_dir e) (stdout s') c test_file ->
      Q (if call_ok c then all_passed else false) s') ->
  wp (log_verbose ("Running " ++ test_file ++ "...");;
      '(success, output) ← run_cargo_command e ["test"; "--test"; test_file]
                                             None;
      if negb success then
        log_warning ("Test file " ++ test_file ++ " had issues: "
                     ++ str_take 200 output ++ "...");;
        ret false
      else ret all_passed) Q s.
Proof.
  intros H. apply wp_bind, logging_log_verbose. intros _ s1 L1.
  apply wp_bind, wp_run_cargo_command. intros o s2 F2 Hc2.
  cbv beta iota.
  assert (F : frame s s2)
    by (eapply frame_trans; [apply log_step_frame, L1 | exact F2]).
  rewrite (log_calls _ _ L1) in Hc2.
  destruct (outcome_ok o) eqn:Hok; cbn [negb].
  - apply wp_ret.
    specialize (H (Call (cargo ["test"; "--test"; test_file]) (winpath_dir e) o) s2).
    unfold call_ok in H. cbn [call_outcome] in H. rewrite Hok in H.
    apply H; auto. split; [split; reflexivity|].
    unfold call_ok. cbn. rewrite Hok. discriminate.
  - unfold log_warning, print. apply wp_bind, wp_modify, wp_ret.
    specialize (H (Call (cargo ["test"; "--test"; test_file]) (winpath_dir e) o)
                  (add_stdout WARNING
                     ("Test file " ++ test_file ++ " had issues: "
                      ++ str_take 200 (outcome_text o) ++ "...") s2)).
    unfold call_ok in H. cbn [call_outcome] in H. rewrite Hok in H.
    apply H.
    + eapply frame_trans; [exact F|].
      apply log_step_frame, log_step_add_stdout. reflexivity.
    + exact Hc2.
    + split; [split; reflexivity|]. intros _. apply In_add_stdout.
Qed.

Lemma sub_suite_logged_prefix wd out out' c f :
  out `prefix_of` out' ->
  sub_suite_logged wd out c f -> sub_suite_logged wd out' c f.
Proof.
  intros Hp [Hi Hw]. split; [exact Hi|]. intros Hf.
  eapply In_prefix; [exact Hp | exact (Hw Hf)].
Qed.

(** The integration check: the umbrella run, then the four test files, all
    five whatever their outcomes; what is recorded and returned is whether
    the four test files succeeded. *)
Lemma wp_test_integration_tests e s :
  wp (test_integration_tests e)
     (fun b s' =>
        exists umbrella c1 c2 c3 c4,
          calls s' = (calls s ++ [umbrella; c1; c2; c3; c4])%list /\
          invoked umbrella ["test"; "--test"; "*"] (winpath_dir e) /\
          Forall2 (sub_suite_logged (winpath_dir e) (stdout s'))
                  [c1; c2; c3; c4] test_files /\
          b = forallb call_ok [c1; c2; c3; c4] /\
          if b then one_pass s s' else one_failure "Integration Tests" s s')
     s.
Proof.
  unfold test_integration_tests.
  apply wp_bind, wp_start_test. intros s0 Hr0 _ _ _ Hc0 _.
  apply wp_bind, wp_run_cargo_command. intros o s1 F1 Hc1. cbv beta iota.
  unfold test_files at 1. cbn [for_acc]. apply wp_bind.
  apply wp_bind, wp_integration_round. intros c1 s2 F2 Hc2 W1.
  apply wp_bind, wp_integration_round. intros c2 s3 F3 Hc3 W2.
  apply wp_bind, wp_integration_round. intros c3 s4 F4 Hc4 W3.
  apply wp_bind, wp_integration_round. intros c4 s5 F5 Hc5 W4.
  apply wp_ret, wp_bind, wp_complete_test.
  intros s6 Hr6 _ _ Ho6 [Hc6 _]. apply wp_ret.
  exists (Call (cargo ["test"; "--test"; "*"]) (winpath_dir e) o), c1, c2, c3, c4.
  assert (P5 : stdout s5 `prefix_of` stdout s6) by exact Ho6.
  assert (P4 : stdout s4 `prefix_of` stdout s6)
    by (etrans; [apply (frame_stdout _ _ F5) | exact P5]).
  assert (P3 : stdout s3 `prefix_of` stdout s6)
    by (etrans; [apply (frame_stdout _ _ F4) | exact P4]).
  assert (P2 : stdout s2 `prefix_of` stdout s6)
    by (etrans; [apply (frame_stdout _ _ F3) | exact P3]).
  assert (F : same_counts (results s0) (results s5)).
  { repeat (eapply same_counts_trans; [|eapply frame_results; eassumption]).
    apply same_counts_refl. }
  split.
  { rewrite Hc6, Hc5, Hc4, Hc3, Hc2, Hc1, Hc0. rewrite <- !app_assoc.
    reflexivity. }
  split; [split; reflexivity|].
  split.
  { constructor; [eapply sub_suite_logged_prefix; [exact P2 | exact W1]|].
    constructor; [eapply sub_suite_logged_prefix; [exact P3 | exact W2]|].
    constructor; [eapply sub_suite_logged_prefix; [exact P4 | exact W3]|].
    constructor; [eapply sub_suite_logged_prefix; [exact P5 | exact W4]|].
    constructor. }
  assert (Hb : (if call_ok c4 then if call_ok c3 then if call_ok c2 then
                  if call_ok c1 then true else false else false else false
                else false) = forallb call_ok [c1; c2; c3; c4])
    by (cbn; destruct (call_ok c1), (call_ok c2), (call_ok c3), (call_ok c4);
        reflexivity).
  rewrite Hb in Hr6 |- *. split; [reflexivity|].
  destruct (forallb call_ok [c1; c2; c3; c4]).
  - eapply (one_pass_intro s s0 s5 s6); eauto.
  - eapply (one_failure_intro _ _ _ s s0 s5 s6); eauto.
Qed.

(** The claim as the specification words it fails: the umbrella run
    succeeds, the test file [basic_tests] fails, and the step is recorded
    as failed. *)
Lemma C2_counterexample :
  let r := test_integration_tests demo_basic_tests_fail
                                  (demo_init [] demo_fs) in
  fst r = inr false /\
  (call_argv <$> head (calls (snd r)))
  = Some ["cargo"; "test"; "--test"; "*"] /\
  (call_ok <$> head (calls (snd r))) = Some true /\
  passed_tests (results (snd r)) = 0 /\
  failed_tests (results (snd r)) = 1.
Proof. vm_compute. repeat split. Qed.

(** C2 (amended). The integration check runs the umbrella command and then
    the four named test files, all five whatever their outcomes.  A test
    file that fails is logged as a warning and makes the step fail: the
    step is recorded as failed, and returns false, as soon as one of the
    four fails.  When the umbrella run and the four test files all succeed,
    the step is recorded as passed. *)
Theorem C2_integration_sub_suites_decide e s :
  wp (test_integration_tests e)
     (fun b s' =>
        exists umbrella subs,
          calls s' = (calls s ++ umbrella :: subs)%list /\
          invoked umbrella ["test"; "--test"; "*"] (winpath_dir e) /\
          Forall2 (sub_suite_logged (winpath_dir e) (stdout s'))
                  subs test_files /\
          (forallb call_ok subs = false ->
           b = false /\ one_failure "Integration Tests" s s') /\
          (call_ok umbrella = true -> forallb call_ok subs = true ->
           b = true /\ one_pass s s'))
     s.
Proof.
  eapply wp_mono; [apply wp_test_integration_tests|].
  cbn beta. intros b s' (u & c1 & c2 & c3 & c4 & Hc & Hu & Hsubs & Hb & Hrec).
  exists u, [c1; c2; c3; c4]. repeat (split; [assumption|]).
  rewrite <- Hb. split.
  - intros ->. auto.
  - intros _ ->. auto.
Qed.

Lemma C2_witness :
  wp (test_integration_tests demo_basic_tests_fail)
     (fun b s' =>
        exists umbrella subs,
          calls s' = (calls (demo_init [] demo_fs) ++ umbrella :: subs)%list /\
          invoked umbrella ["test"; "--test"; "*"]
                  (winpath_dir demo_basic_tests_fail) /\
          Forall2 (sub_suite_logged (winpath_dir demo_basic_tests_fail)
                                    (stdout s'))
                  subs test_files /\
          (forallb call_ok subs = false ->
           b = false /\
           one_failure "Integration Tests" (demo_init [] demo_fs) s') /\
          (call_ok umbrella = true -> forallb call_ok subs = true ->
           b = true /\ one_pass (demo_init [] demo_fs) s'))
     (demo_init [] demo_fs).
Proof.
  exact (C2_integration_sub_suites_decide demo_basic_tests_fail
                                          (demo_init [] demo_fs)).
Defined.

Lemma wp_conj {A} (m : M A) (Q1 Q2 : A -> state -> Prop) s :
  wp m Q1 s -> wp m Q2 s -> wp m (fun a s' => Q1 a s' /\ Q2 a s') s.
Proof.
  unfold wp. destruct (m s) as [[x|a] s']; [intros []|]. auto.
Qed.

(** The compilation check: builds in the order of [build_variants], up to
    the first failure; one result is recorded for the whole step. *)
Lemma wp_test_basic_compilation e s :
  wp (test_basic_compilation e)
     (fun b s' =>
        exists cs,
          calls s' = (calls s ++ cs)%list /\
          run_until_failure (winpath_dir e) build_variants cs b /\
          if b then one_pass s s' else one_failure "Basic Compilation" s s')
     s.
Proof.
  unfold test_basic_compilation.
  apply wp_bind, wp_start_test. intros s0 Hr0 _ _ _ Hc0 _.
  apply wp_bind, logging_log_verbose. intros _ s1 L1.
  pose proof (log_step_frame _ _ L1) as F1.
  apply wp_bind, wp_run_cargo_command. intros o1 s2 F2 Hc2. cbv beta iota.
  rewrite (log_calls _ _ L1), Hc0 in Hc2.
  assert (C2 : same_counts (results s0) (results s2))
    by (eapply same_counts_trans; eapply frame_results; eassumption).
  destruct (outcome_ok o1) eqn:Hok1; cbn [negb].
  - apply wp_bind, logging_log_verbose. intros _ s3 L3.
    pose proof (log_step_frame _ _ L3) as F3.
    apply wp_bind, wp_run_cargo_command. intros o2 s4 F4 Hc4. cbv beta iota.
    rewrite (log_calls _ _ L3), Hc2 in Hc4.
    assert (C4 : same_counts (results s0) (results s4))
      by (eapply same_counts_trans; [exact C2|];
          eapply same_counts_trans; eapply frame_results; eassumption).
    destruct (outcome_ok o2) eqn:Hok2; cbn [negb].
    + apply wp_bind, logging_log_verbose. intros _ s5 L5.
      pose proof (log_step_frame _ _ L5) as F5.
      apply wp_bind, wp_run_cargo_command. intros o3 s6 F6 Hc6. cbv beta iota.
      rewrite (log_calls _ _ L5), Hc4 in Hc6.
      assert (C6 : same_counts (results s0) (results s6))
        by (eapply same_counts_trans; [exact C4|];
            eapply same_counts_trans; eapply frame_results; eassumption).
      destruct (outcome_ok o3) eqn:Hok3; cbn [negb];
        apply wp_bind, wp_complete_test; intros s7 Hr7 _ _ _ [Hc7 _];
        apply wp_ret; eexists;
        (split; [rewrite Hc7, Hc6, <- !app_assoc; reflexivity|]);
        (split;
         [ apply run_next; [split; reflexivity | exact Hok1 |];
           apply run_next; [split; reflexivity | exact Hok2 |];
           first [ apply run_next; [split; reflexivity | exact Hok3 |];
                   apply run_all_ok
                 | apply run_failed; [split; reflexivity | exact Hok3] ]
         | ]).
      * eapply (one_pass_intro s s0 s6 s7); eauto.
      * eapply (one_failure_intro _ _ _ s s0 s6 s7); eauto.
    + apply wp_bind, wp_complete_test. intros s7 Hr7 _ _ _ [Hc7 _].
      apply wp_ret. eexists.
      split; [rewrite Hc7, Hc4, <- !app_assoc; reflexivity|].
      split.
      * apply run_next; [split; reflexivity | exact Hok1 |].
        apply run_failed; [split; reflexivity | exact Hok2].
      * eapply (one_failure_intro _ _ _ s s0 s4 s7); eauto.
  - apply wp_bind, wp_complete_test. intros s7 Hr7 _ _ _ [Hc7 _].
    apply wp_ret. eexists.
    split; [rewrite Hc7, Hc2; reflexivity|].
    split.
    + apply run_failed; [split; reflexivity | exact Hok1].
    + eapply (one_failure_intro _ _ _ s s0 s2 s7); eauto.
Qed.

(** The claim as the specification words it fails: with every build
    succeeding, all three variants run, and the totals count one check, not
    three. *)
Lemma C3_counterexample :
  let r := test_basic_compilation (demo_env []) (demo_init [] demo_fs) in
  fst r = inr true /\
  List.map call_argv (calls (snd r))
  = [cargo ["build"]; cargo ["build"; "--release"];
     cargo ["build"; "--all-features"]] /\
  total_tests (results (snd r)) = 1 /\
  passed_tests (results (snd r)) = 1 /\
  started (snd r) = ["Basic Compilation"].
Proof. vm_compute. repeat split. Qed.

(** C3 (amended). The compilation step is one check: it is started once and
    contributes one result to the totals.  Inside it the three build
    variants (default, release, all-features) run in that order up to the
    first one that fails; the step is recorded as failed, and returns
    false, if a variant fails, and as passed when all three succeed. *)
Theorem C3_compilation_is_one_check e s :
  wp (test_basic_compilation e)
     (fun b s' =>
        total_tests (results s') = total_tests (results s) + 1 /\
        started s' = (started s ++ ["Basic Compilation"])%list /\
        exists cs,
          calls s' = (calls s ++ cs)%list /\
          run_until_failure (winpath_dir e) build_variants cs b /\
          if b then one_pass s s' else one_failure "Basic Compilation" s s')
     s.
Proof.
  eapply wp_mono.
  - apply wp_conj;
      [apply wp_test_basic_compilation | apply check_test_basic_compilation].
    intros b s' H. exact H.
  - cbn beta. intros b s' [(cs & Hc & Hrun & Hrec) Hchk].
    split; [|split; [apply (checked_started _ _ _ _ Hchk) | eauto]].
    destruct b; destruct Hrec as (Ht & _); exact Ht.
Qed.

(** ** The filesystem, [__init__] and [main] *)

Lemma child_not_nil p name : child p name <> [].
Proof. unfold child. destruct p; discriminate. Qed.

Lemma path_exists_lookup (f : gmap path node) p :
  p <> [] ->
  path_exists f p = match f !! p with Some _ => true | None => false end.
Proof. destruct p; [congruence | reflexivity]. Qed.

Lemma is_dir_lookup (f : gmap path node) p :
  p <> [] ->
  is_dir f p = match f !! p with Some Dir => true | _ => false end.
Proof. destruct p; [congruence | reflexivity]. Qed.

Lemma winpath_dir_not_results e : test_results_dir e <> winpath_dir e.
Proof.
  unfold test_results_dir, winpath_dir, child. rewrite <- app_assoc.
  intros H. apply app_inv_head in H. discriminate H.
Qed.

(** Writing a file where no directory was creates and removes no
    directory. *)
Lemma is_dir_insert_file (f : gmap path node) p v q :
  is_dir f p = false -> is_dir (<[p := File v]> f) q = is_dir f q.
Proof.
  intros Hp. destruct q as [|a q]; [reflexivity|].
  destruct (decide (p = a :: q)) as [->|Hne].
  - rewrite Hp. cbn. rewrite lookup_insert_eq. reflexivity.
  - cbn. rewrite lookup_insert_ne by exact Hne. reflexivity.
Qed.

(** What [__init__] leaves: a fresh record, and the results directory when
    it returns. *)
Lemma init_run e v s0 :
  exists r s1,
    init e v s0 = (r, s1) /\
    results s1 = TestResults 0 0 0 [] ∅ (clock e (ticks s0)) /\
    verbose s1 = v /\ calls s1 = calls s0 /\ stdout s1 = stdout s0 /\
    ticks s1 = S (ticks s0) /\
    match r with
    | inr _ =>
        is_dir (fs s1) (test_results_dir e) = true /\
        (fs s1 = fs s0 \/ fs s1 = <[test_results_dir e := Dir]> (fs s0))
    | inl _ => fs s1 = fs s0
    end.
Proof.
  unfold init. rewrite bind_time_time, bind_modify. unfold mkdir_exist_ok.
  cbn [fs tick].
  destruct (is_dir (fs s0) (test_results_dir e)) eqn:Hd.
  { eexists _, _. split; [reflexivity|]. cbn. auto 10. }
  destruct (path_exists (fs s0) (test_results_dir e)).
  { eexists _, _. split; [reflexivity|]. cbn. auto 10. }
  destruct (is_dir (fs s0) (parent (test_results_dir e))).
  - eexists _, _. split; [reflexivity|]. cbn. repeat (split; [reflexivity|]).
    split; [|auto].
    rewrite is_dir_lookup by apply child_not_nil.
    unfold test_results_dir. rewrite lookup_insert_eq. reflexivity.
  - eexists _, _. split; [reflexivity|]. cbn. auto 10.
Qed.

(** [main], step by step. *)
Lemma main_unfold e a s0 :
  main e a s0 =
  match init e (arg_verbose a) s0 with
  | (inl x, s1) => (inl x, s1)
  | (inr _, s1) =>
      match run_validation_suite e (arg_performance a) (arg_git_bash a)
                                 (arg_full a) (arg_iterations a) s1 with
      | (inl x, s2) =>
          (inr 1,
           add_stdout ERROR ("Validation failed with error: " ++ exn_msg x) s2)
      | (inr success, s2) =>
          match generate_report e (Some (report_destination e a)) s2 with
          | (inl x, s3) =>
              (inr 1,
               add_stdout ERROR
                 ("Validation failed with error: " ++ exn_msg x) s3)
          | (inr report_success, s3) =>
              if success && report_success then
                (inr 0,
                 add_stdout SUCCESS "All tests passed successfully!" s3)
              else
                (inr 1,
                 add_stdout ERROR
                   "Some tests failed. Check the report for details." s3)
          end
      end
  end.
Proof.
  unfold main, try_except, bind at 1.
  destruct (init e (arg_verbose a) s0) as [[x|[]] s1]; [reflexivity|].
  unfold bind at 1.
  destruct (run_validation_suite e (arg_performance a) (arg_git_bash a)
              (arg_full a) (arg_iterations a) s1) as [[x|success] s2];
    [reflexivity|].
  fold (report_destination e a). unfold bind at 1.
  destruct (generate_report e (Some (report_destination e a)) s2)
    as [[x|report_success] s3]; [reflexivity|].
  destruct (success && report_success); reflexivity.
Qed.

Lemma parent_child p name : parent (child p name) = p.
Proof. unfold parent, child. apply removelast_last. Qed.

Lemma missing_root_after_init e v f r s1 :
  path_exists f (winpath_dir e) = false ->
  init e v (process_start f) = (r, s1) ->
  path_exists (fs s1) (winpath_dir e) = false.
Proof.
  intros Hroot Hi.
  destruct (init_run e v (process_start f))
    as (r' & s1' & Hi' & _ & _ & _ & _ & _ & Hfs).
  rewrite Hi in Hi'. inversion Hi'; subst r' s1'. clear Hi'.
  cbn [fs process_start] in Hfs.
  assert (Hcase : fs s1 = f \/ fs s1 = <[test_results_dir e := Dir]> f)
    by (destruct r; [left; exact Hfs | apply Hfs]).
  destruct Hcase as [-> | ->]; [exact Hroot|].
  rewrite path_exists_lookup in * by apply child_not_nil.
  rewrite lookup_insert_ne by apply winpath_dir_not_results. exact Hroot.
Qed.

Lemma run_validation_suite_missing_run e performance git_bash full_suite
      iterations s :
  path_exists (fs s) (winpath_dir e) = false ->
  exists s',
    run_validation_suite e performance git_bash full_suite iterations s
    = (inr false, s') /\
    log_step s s'.
Proof.
  intros Hroot. eexists. split; [apply run_validation_suite_missing, Hroot|].
  eapply log_step_trans; [apply log_step_suite_header|].
  apply log_step_add_stdout. reflexivity.
Qed.

(** The claim as the specification words it fails: with the library root
    missing and [--output] naming a file in a directory that does not
    exist, [generate_report] raises; no report is written, and the script
    exits with status 1. *)
Lemma C4_counterexample :
  let r := run_script (demo_env []) demo_args_far demo_fs_no_root in
  let s := snd (run_validation_suite (demo_env []) false false false 1000
                                     (demo_init [] demo_fs_no_root)) in
  path_exists demo_fs_no_root (winpath_dir (demo_env [])) = false /\
  fst (generate_report (demo_env []) (Some demo_far_destination) s)
  = inl (Exn FileNotFoundError
             "[Errno 2] No such file or directory: '/reports/run1/report.json'")
  /\
  fs (snd r) !! demo_far_destination = None /\
  fst r = 1.
Proof. vm_compute. repeat split. Qed.

(** C4 (amended). With the library root missing, [run_validation_suite]
    returns false before any check: no check is started or counted and no
    process is run; the script then exits with status 1.
    [generate_report] is still called.  When its destination can be opened
    (the parent directory exists and the destination is not a directory)
    it writes there a report whose summary has [total_tests] equal to 0;
    otherwise it raises and nothing is written.  The default destination
    can be opened whenever [__init__] returned, unless a directory sits at
    the report's own path. *)
Theorem C4_missing_library_root e a f :
  path_exists f (winpath_dir e) = false ->
  (forall performance git_bash full_suite iterations s,
      fs s = f ->
      exists s',
        run_validation_suite e performance git_bash full_suite iterations s
        = (inr false, s') /\
        results s' = results s /\ started s' = started s /\
        calls s' = calls s /\ fs s' = fs s)
  /\
  fst (run_script e a f) = 1
  /\
  (forall s1,
      init e (arg_verbose a) (process_start f) = (inr tt, s1) ->
      calls (snd (run_script e a f)) = [] /\
      if can_open_w (fs s1) (report_destination e a) then
        exists j,
          fs (snd (run_script e a f)) !! report_destination e a
          = Some (File j) /\
          summary_field "total_tests" j = Some (JInt 0)
      else fs (snd (run_script e a f)) = fs s1)
  /\
  (forall s1,
      init e (arg_verbose a) (process_start f) = (inr tt, s1) ->
      arg_output a = None ->
      is_dir (fs s1) (report_destination e a) = false ->
      can_open_w (fs s1) (report_destination e a) = true).
Proof.
  intros Hroot. split; [|split; [|split]].
  - intros performance git_bash full_suite iterations s Hfs.
    destruct (run_validation_suite_missing_run e performance git_bash
                full_suite iterations s) as (s' & Hs & L).
    { rewrite Hfs. exact Hroot. }
    exists s'. split; [exact Hs|]. destruct L. auto.
  - unfold run_script. rewrite main_unfold.
    destruct (init e (arg_verbose a) (process_start f)) as [[x|[]] s1] eqn:Hi;
      [reflexivity|].
    destruct (run_validation_suite_missing_run
                e (arg_performance a) (arg_git_bash a) (arg_full a)
                (arg_iterations a) s1) as (s2 & Hs & _).
    { eapply missing_root_after_init; eassumption. }
    rewrite Hs.
    destruct (generate_report e (Some (report_destination e a)) s2)
      as [[x|b] s3]; reflexivity.
  - intros s1 Hi. unfold run_script. rewrite main_unfold, Hi.
    destruct (run_validation_suite_missing_run
                e (arg_performance a) (arg_git_bash a) (arg_full a)
                (arg_iterations a) s1) as (s2 & Hs & L).
    { eapply missing_root_after_init; eassumption. }
    rewrite Hs. destruct L as [Lr _ Lf Lc _ _ _].
    destruct (generate_report_run e (Some (report_destination e a)) s2)
      as (res & s3 & Hg & Hr & _ & Hc & _ & _ & Hout).
    destruct (init_run e (arg_verbose a) (process_start f))
      as (r' & s1' & Hi' & Hr1 & _ & Hc1 & _).
    rewrite Hi in Hi'. inversion Hi'; subst r' s1'. clear Hi'.
    assert (Hcalls : calls s3 = []) by (rewrite Hc, Lc, Hc1; reflexivity).
    rewrite Lf in Hout. rewrite Hg.
    destruct (can_open_w (fs s1) (report_destination e a)).
    + destruct Hout as [-> Hfs]. cbn [andb snd fs add_stdout calls].
      split; [exact Hcalls|]. rewrite Hfs, lookup_insert_eq.
      eexists. split; [reflexivity|]. rewrite Lr, Hr1. reflexivity.
    + destruct Hout as [[x ->] Hfs]. cbn [snd fs add_stdout calls].
      split; [exact Hcalls|]. exact Hfs.
  - intros s1 Hi Ha Hd. unfold can_open_w. rewrite Hd.
    unfold report_destination in *. rewrite Ha in *. rewrite parent_child.
    destruct (init_run e (arg_verbose a) (process_start f))
      as (r' & s1' & Hi' & _ & _ & _ & _ & _ & Hfs).
    rewrite Hi in Hi'. inversion Hi'; subst r' s1'.
    destruct Hfs as [-> _]. reflexivity.
Qed.

Lemma C4_witness :
  path_exists demo_fs_no_root (winpath_dir (demo_env [])) = false /\
  fst (run_script (demo_env []) demo_args demo_fs_no_root) = 1 /\
  init (demo_env []) (arg_verbose demo_args) (process_start demo_fs_no_root)
  = (inr tt, demo_init [] demo_fs_no_root) /\
  calls (snd (run_script (demo_env []) demo_args demo_fs_no_root)) = [].
Proof.
  split; [reflexivity|].
  split.
  - exact (proj1 (proj2 (C4_missing_library_root
                           (demo_env []) demo_args demo_fs_no_root eq_refl))).
  - split; [reflexivity|].
    exact (proj1 (proj1 (proj2 (proj2 (C4_missing_library_root
                                         (demo_env []) demo_args
                                         demo_fs_no_root eq_refl)))
                        (demo_init [] demo_fs_no_root) eq_refl)).
Defined.

(** The claim as the specification words it fails: every check passes, the
    destination's parent directory does not exist, and [generate_report]
    raises instead of creating it; nothing is written and the script exits
    with status 1. *)
Lemma C5_counterexample :
  let s := demo_init [] demo_fs in
  let r := generate_report (demo_env []) (Some demo_far_destination) s in
  path_exists (fs s) (parent demo_far_destination) = false /\
  fst r = inl (Exn FileNotFoundError
                   "[Errno 2] No such file or directory: '/reports/run1/report.json'") /\
  fs (snd r) !! demo_far_destination = None /\
  fs (snd r) !! parent demo_far_destination = None /\
  fst (run_script (demo_env [])
                  (Args false false false false 1000
                        (Some demo_far_destination)) demo_fs) = 1.
Proof. vm_compute. repeat split. Qed.

(** C5 (amended). Given a destination, [generate_report] serializes the
    summary, the errors and the performance data to it when the
    destination can be opened, that is when its parent directory exists
    and it is not itself a directory.  It creates no directory: otherwise
    it raises and leaves the filesystem as it was.  The one directory the
    validator creates is the results directory, at construction, which is
    the parent of the default destination. *)
Theorem C5_report_written_when_openable e p s :
  (exists res s',
      generate_report e (Some p) s = (res, s') /\
      (forall q, is_dir (fs s') q = is_dir (fs s) q) /\
      if is_dir (fs s) (parent p) && negb (is_dir (fs s) p) then
        res = inr (failed_tests (results s) =? 0)%Z /\
        fs s' = <[p := File (report_data (results s)
                               (clock e (ticks s) - start_time (results s))
                               (clock e (ticks s)))]> (fs s)
      else
        (exists x, res = inl x) /\ fs s' = fs s)
  /\
  (forall v s0 s1,
      init e v s0 = (inr tt, s1) ->
      is_dir (fs s1) (test_results_dir e) = true)
  /\
  (forall a,
      arg_output a = None ->
      parent (report_destination e a) = test_results_dir e).
Proof.
  split; [|split].
  - destruct (generate_report_run e (Some p) s)
      as (res & s' & Hg & _ & _ & _ & _ & _ & Hout).
    exists res, s'. split; [exact Hg|]. unfold can_open_w in Hout.
    destruct (is_dir (fs s) (parent p) && negb (is_dir (fs s) p)) eqn:Hopen.
    + destruct Hout as [-> Hfs]. split; [|auto]. intros q. rewrite Hfs.
      apply is_dir_insert_file.
      apply andb_true_iff in Hopen as [_ Hp].
      apply negb_true_iff in Hp. exact Hp.
    + destruct Hout as [Hx Hfs]. split; [|auto]. intros q. rewrite Hfs.
      reflexivity.
  - intros v s0 s1 Hi.
    destruct (init_run e v s0) as (r' & s1' & Hi' & _ & _ & _ & _ & _ & Hfs).
    rewrite Hi in Hi'. inversion Hi'; subst r' s1'. apply Hfs.
  - intros a Ha. unfold report_destination. rewrite Ha. apply parent_child.
Qed.

Lemma C5_witness :
  init (demo_env []) false (process_start demo_fs)
  = (inr tt, demo_init [] demo_fs) /\
  is_dir (fs (demo_init [] demo_fs)) (test_results_dir (demo_env [])) = true /\
  arg_output demo_args = None /\
  parent (report_destination (demo_env []) demo_args)
  = test_results_dir (demo_env []).
Proof.
  split; [reflexivity|].
  split.
  - exact (proj1 (proj2 (C5_report_written_when_openable
                           (demo_env []) demo_far_destination
                           (demo_init [] demo_fs)))
                 false (process_start demo_fs) (demo_init [] demo_fs) eq_refl).
  - split; [reflexivity|].
    exact (proj2 (proj2 (C5_report_written_when_openable
                           (demo_env []) demo_far_destination
                           (demo_init [] demo_fs)))
                 demo_args eq_refl).
Defined.

(** * Further properties of the harness *)

(** ** The two success signals agree *)

Lemma recorded_failed name (ok : bool) r r' :
  recorded name ok r r' ->
  failed_tests r' = failed_tests r + (if ok then 0 else 1).
Proof.
  unfold recorded, closes. cbn. intros (_ & _ & H).
  destruct ok; destruct H as (_ & Hf & _); lia.
Qed.

Lemma run_checks_success (cs : list (string * M bool)) success s :
  Forall (fun c => check (fst c) (snd c)) cs ->
  wp (run_checks (List.map snd cs) success)
     (fun r s' =>
        failed_tests (results s) <= failed_tests (results s') /\
        r = success
            && (failed_tests (results s') =? failed_tests (results s))%Z)
     s.
Proof.
  intros Hcs. revert success s.
  induction Hcs as [|[name m] cs Hm Hcs IH]; intros success s; cbn.
  - split; [lia|]. rewrite Z.eqb_refl, andb_true_r. reflexivity.
  - apply wp_bind, Hm. intros b s1 [Hr _ _ _ _].
    apply recorded_failed in Hr. eapply wp_mono; [apply IH|].
    cbn beta. intros r s2 [Hle ->]. split; [destruct b; lia|].
    destruct b.
    + rewrite andb_true_r. replace (failed_tests (results s1))
        with (failed_tests (results s)) by lia. reflexivity.
    + rewrite andb_false_r. cbn.
      replace (failed_tests (results s2) =? failed_tests (results s))%Z
        with false; [rewrite andb_false_r; reflexivity|].
      symmetry. apply Z.eqb_neq. lia.
Qed.

(** X1. The value [run_validation_suite] returns and the failures it
    records never disagree: it returns true exactly when the library root
    exists and no check of the run was recorded as failed. *)
Theorem suite_success_iff_no_failure
        e performance git_bash full_suite iterations s :
  wp (run_validation_suite e performance git_bash full_suite iterations)
     (fun b s' =>
        b = path_exists (fs s) (winpath_dir e)
            && (failed_tests (results s') =? failed_tests (results s))%Z)
     s.
Proof.
  destruct (path_exists (fs s) (winpath_dir e)) eqn:Hroot.
  - unfold wp. rewrite run_validation_suite_checks by exact Hroot.
    eapply wp_mono;
      [apply run_checks_success, suite_checks_check|].
    cbn beta. intros r s' [_ ->]. reflexivity.
  - unfold wp. rewrite run_validation_suite_missing by exact Hroot.
    reflexivity.
Qed.

(** ** Whole runs of the script *)






(** ** The report, read back *)

(** X4. When [generate_report] returns, it returns true exactly when
    [failed_tests] is 0 and has not touched the record or started a
    process; with a destination, the file there reads back the counters of
    the record and one entry per recorded error; without one, the
    filesystem is as before. *)
Theorem generate_report_returns e out s b s' :
  generate_report e out s = (inr b, s') ->
  (b = true <-> failed_tests (results s) = 0) /\
  results s' = results s /\ calls s' = calls s /\
  match out with
  | Some p =>
      exists j,
        fs s' !! p = Some (File j) /\
        summary_field "total_tests" j = Some (JInt (total_tests (results s))) /\
        summary_field "passed_tests" j
        = Some (JInt (passed_tests (results s))) /\
        summary_field "failed_tests" j
        = Some (JInt (failed_tests (results s))) /\
        json_field "errors" j
        = Some (JList (List.map error_json (errors (results s))))
  | None => fs s' = fs s
  end.
Proof.
  intros Hrun.
  destruct (generate_report_run e out s)
    as (res & s'' & Hg & Hr & _ & Hc & _ & _ & Hout).
  rewrite Hrun in Hg. inversion Hg; subst res s''. clear Hg.
  assert (Hb : b = (failed_tests (results s) =? 0)%Z).
  { destruct out as [p|].
    - destruct (can_open_w (fs s) p).
      + destruct Hout as [H _]. inversion H. reflexivity.
      + destruct Hout as [[x Hx] _]. discriminate Hx.
    - destruct Hout as [H _]. inversion H. reflexivity. }
  split; [rewrite Hb; apply Z.eqb_eq|]. split; [exact Hr|].
  split; [exact Hc|].
  destruct out as [p|]; [|apply Hout].
  destruct (can_open_w (fs s) p).
  - destruct Hout as [_ ->]. rewrite lookup_insert_eq. eexists.
    split; [reflexivity|]. repeat split.
  - destruct Hout as [[x Hx] _]. discriminate Hx.
Qed.

Lemma generate_report_returns_witness :
  generate_report (demo_env []) None (demo_init [] demo_fs)
  = (inr true, snd (generate_report (demo_env []) None (demo_init [] demo_fs)))
  /\ (true = true <-> failed_tests (results (demo_init [] demo_fs)) = 0).
Proof.
  split; [vm_compute; reflexivity|].
  exact (proj1 (generate_report_returns
                  (demo_env []) None (demo_init [] demo_fs) true _ eq_refl)).
Defined.

(** ** More checks in detail *)

(** X5. The unit-test check runs [cargo test --lib] once in the library
    root and passes exactly when that command succeeds; when it fails, the
    entry appended to the error list carries the command's whole output
    after "Unit tests failed: ". *)
Theorem unit_tests_failure_keeps_output e s :
  wp (test_unit_tests e)
     (fun b s' =>
        exists c,
          calls s' = (calls s ++ [c])%list /\
          invoked c ["test"; "--lib"] (winpath_dir e) /\
          b = call_ok c /\
          if b then one_pass s s'
          else
            failed_tests (results s') = failed_tests (results s) + 1 /\
            exists t,
              errors (results s')
              = (errors (results s)
                 ++ [ErrorEntry "Unit Tests"
                                ("Unit tests failed: " ++ call_text c) t])%list)
     s.
Proof.
  unfold test_unit_tests.
  apply wp_bind, wp_start_test. intros s0 Hr0 _ _ _ Hc0 _.
  apply wp_bind, wp_run_cargo_command. intros o s1 F1 Hc1. cbv beta iota.
  rewrite Hc0 in Hc1. pose proof (frame_results _ _ F1) as C1.
  destruct (outcome_ok o) eqn:Hok; cbn [negb];
    apply wp_bind, wp_complete_test; intros s2 Hr2 _ _ _ [Hc2 _];
    apply wp_ret; eexists;
    (split; [rewrite Hc2; exact Hc1|]);
    (split; [split; reflexivity|]);
    unfold call_ok; cbn [call_outcome]; rewrite Hok;
    (split; [reflexivity|]).
  - eapply (one_pass_intro s s0 s1 s2); eauto.
  - destruct C1 as (_ & _ & Hf & He & _). rewrite Hr2. cbn.
    rewrite Hf, He, Hr0. cbn. split; [reflexivity|]. eexists. reflexivity.
Qed.

(** X6. The documentation check fails exactly when [cargo doc --no-deps]
    fails, and then runs nothing else; when the build succeeds it runs
    [cargo test --doc] and passes whatever that returns, a failure there
    being only logged as a warning. *)
Theorem documentation_fails_only_on_build e s :
  wp (test_documentation e)
     (fun b s' =>
        exists build rest,
          calls s' = (calls s ++ build :: rest)%list /\
          invoked build ["doc"; "--no-deps"] (winpath_dir e) /\
          b = call_ok build /\
          if b then
            one_pass s s' /\
            exists doctests,
              rest = [doctests] /\
              invoked doctests ["test"; "--doc"] (winpath_dir e) /\
              (call_ok doctests = false ->
               In (WARNING,
                   "Documentation tests had issues: "
                   ++ str_take 200 (call_text doctests) ++ "...")
                  (stdout s'))
          else rest = [] /\ one_failure "Documentation Tests" s s')
     s.
Proof.
  unfold test_documentation.
  apply wp_bind, wp_start_test. intros s0 Hr0 _ _ _ Hc0 _.
  apply wp_bind, logging_log_verbose. intros _ s1 L1.
  apply wp_bind, wp_run_cargo_command. intros o1 s2 F2 Hc2. cbv beta iota.
  rewrite (log_calls _ _ L1), Hc0 in Hc2.
  assert (C2 : same_counts (results s0) (results s2))
    by (eapply same_counts_trans;
        [apply (frame_results _ _ (log_step_frame _ _ L1))
        | apply (frame_results _ _ F2)]).
  destruct (outcome_ok o1) eqn:Hok1; cbn [negb].
  - apply wp_bind, logging_log_verbose. intros _ s3 L3.
    apply wp_bind, wp_run_cargo_command. intros o2 s4 F4 Hc4. cbv beta iota.
    rewrite (log_calls _ _ L3), Hc2, <- app_assoc in Hc4.
    assert (C4 : same_counts (results s0) (results s4))
      by (eapply same_counts_trans; [exact C2|];
          eapply same_counts_trans;
          [apply (frame_results _ _ (log_step_frame _ _ L3))
          | apply (frame_results _ _ F4)]).
    apply wp_bind.
    destruct (outcome_ok o2) eqn:Hok2; cbn [negb].
    + apply wp_ret, wp_bind, wp_complete_test.
      intros s5 Hr5 _ _ Ho5 [Hc5 _]. apply wp_ret. eexists _, _.
      split; [rewrite Hc5; exact Hc4|]. split; [split; reflexivity|].
      unfold call_ok at 1 2. cbn [call_outcome]. rewrite Hok1.
      split; [reflexivity|]. split.
      * eapply (one_pass_intro s s0 s4 s5); eauto.
      * eexists. split; [reflexivity|]. split; [split; reflexivity|].
        unfold call_ok. cbn. rewrite Hok2. discriminate.
    + unfold log_warning, print. apply wp_modify, wp_bind, wp_complete_test.
      intros s5 Hr5 _ _ Ho5 [Hc5 _]. apply wp_ret. eexists _, _.
      split; [rewrite Hc5; exact Hc4|]. split; [split; reflexivity|].
      unfold call_ok at 1 2. cbn [call_outcome]. rewrite Hok1.
      split; [reflexivity|]. split.
      * eapply (one_pass_intro s s0 s4 s5); eauto.
      * eexists. split; [reflexivity|]. split; [split; reflexivity|].
        intros _. eapply In_prefix; [exact Ho5|]. apply In_add_stdout.
  - apply wp_bind, wp_complete_test. intros s5 Hr5 _ _ _ [Hc5 _].
    apply wp_ret. eexists _, _.
    split; [rewrite Hc5; exact Hc2|]. split; [split; reflexivity|].
    unfold call_ok. cbn [call_outcome]. rewrite Hok1.
    split; [reflexivity|]. split; [reflexivity|].
    eapply (one_failure_intro _ _ _ s s0 s2 s5); eauto.
Qed.

(** [run_cargo_command] with everything it leaves in place. *)
Lemma wp_run_cargo_command_exact e args cwd Q s :
  (forall o s',
      frame s s' ->
      calls s' = (calls s ++ [Call (cargo args) (cargo_cwd e cwd) o])%list ->
      results s' = results s ->
      ticks s' = ticks s ->
      Q (outcome_ok o, outcome_text o) s') ->
  wp (run_cargo_command e args cwd) Q s.
Proof.
  intros H. unfold wp, run_cargo_command, try_except, bind, subprocess_run.
  fold (cargo_cwd e cwd).
  destruct (spawn e (length (calls s)) ("cargo" :: args) (cargo_cwd e cwd) (fs s))
    as [o f'].
  destruct o as [rc out err | x].
  - cbn. destruct (verbose s) eqn:Hv; cbn.
    + destruct (nonempty (out ++ err)); cbn.
      * unfold log_verbose, bind, gets, print, modify, ret. cbn. rewrite Hv.
        apply (H (Completed rc out err)); solve [solve_frame | reflexivity].
      * apply (H (Completed rc out err)); solve [solve_frame | reflexivity].
    + apply (H (Completed rc out err)); solve [solve_frame | reflexivity].
  - cbn. destruct x as [c msg]. destruct c; cbn;
      match goal with
      | |- Q _ (add_call (Call _ _ ?o) _) => apply (H o)
      end; solve [solve_frame | reflexivity].
Qed.

(** One round of the loop over the probes of the Git-Bash check. *)
Lemma wp_probe_round e pattern (all_passed : bool) Q s :
  (forall c s',
      frame s s' ->
      calls s' = (calls s ++ [c])%list ->
      probe_logged (winpath_dir e) (stdout s') c pattern ->
      Q (if call_ok c then all_passed else false) s') ->
  wp (log_verbose ("Testing pattern: " ++ pattern);;
      '(success, output) ← run_cargo_command e ["test"; pattern] None;
      if negb success then
        log_warning ("Pattern " ++ pattern ++ " test had issues");;
        ret false
      else ret all_passed) Q s.
Proof.
  intros H. apply wp_bind, logging_log_verbose. intros _ s1 L1.
  apply wp_bind, wp_run_cargo_command. intros o s2 F2 Hc2.
  cbv beta iota.
  assert (F : frame s s2)
    by (eapply frame_trans; [apply log_step_frame, L1 | exact F2]).
  rewrite (log_calls _ _ L1) in Hc2.
  destruct (outcome_ok o) eqn:Hok; cbn [negb].
  - apply wp_ret.
    specialize (H (Call (cargo ["test"; pattern]) (winpath_dir e) o) s2).
    unfold call_ok in H. cbn [call_outcome] in H. rewrite Hok in H.
    apply H; auto. split; [split; reflexivity|].
    unfold call_ok. cbn. rewrite Hok. discriminate.
  - unfold log_warning, print. apply wp_bind, wp_modify, wp_ret.
    specialize (H (Call (cargo ["test"; pattern]) (winpath_dir e) o)
                  (add_stdout WARNING
                     ("Pattern " ++ pattern ++ " test had issues") s2)).
    unfold call_ok in H. cbn [call_outcome] in H. rewrite Hok in H.
    apply H.
    + eapply frame_trans; [exact F|].
      apply log_step_frame, log_step_add_stdout. reflexivity.
    + exact Hc2.
    + split; [split; reflexivity|]. intros _. apply In_add_stdout.
Qed.

Lemma probe_logged_prefix wd out out' c f :
  out `prefix_of` out' -> probe_logged wd out c f -> probe_logged wd out' c f.
Proof.
  intros Hp [Hi Hw]. split; [exact Hi|]. intros Hf.
  eapply In_prefix; [exact Hp | exact (Hw Hf)].
Qed.

(** X7. The Git-Bash check first runs [cargo test --test git_bash_tests]:
    if that fails the step fails at once and no probe is run.  Otherwise
    the four probes all run, each failure is logged as a warning, and the
    step passes exactly when all four succeed. *)
Theorem git_bash_probes_after_main_suite e s :
  wp (test_git_bash_specific e)
     (fun b s' =>
        exists main probes,
          calls s' = (calls s ++ main :: probes)%list /\
          invoked main ["test"; "--test"; "git_bash_tests"] (winpath_dir e) /\
          (if b then one_pass s s'
           else one_failure "Git Bash Path Handling" s s') /\
          if call_ok main then
            Forall2 (probe_logged (winpath_dir e) (stdout s'))
                    probes test_patterns /\
            b = forallb call_ok probes
          else probes = [] /\ b = false)
     s.
Proof.
  unfold test_git_bash_specific.
  apply wp_bind, wp_start_test. intros s0 Hr0 _ _ _ Hc0 _.
  apply wp_bind, wp_run_cargo_command. intros o s1 F1 Hc1. cbv beta iota.
  rewrite Hc0 in Hc1.
  destruct (outcome_ok o) eqn:Hok; cbn [negb].
  - unfold test_patterns at 1. cbn [for_acc]. apply wp_bind.
    apply wp_bind, wp_probe_round. intros c1 s2 F2 Hc2 W1.
    apply wp_bind, wp_probe_round. intros c2 s3 F3 Hc3 W2.
    apply wp_bind, wp_probe_round. intros c3 s4 F4 Hc4 W3.
    apply wp_bind, wp_probe_round. intros c4 s5 F5 Hc5 W4.
    apply wp_ret, wp_bind, wp_complete_test.
    intros s6 Hr6 _ _ Ho6 [Hc6 _]. apply wp_ret.
    exists (Call (cargo ["test"; "--test"; "git_bash_tests"]) (winpath_dir e) o),
      [c1; c2; c3; c4].
    assert (P5 : stdout s5 `prefix_of` stdout s6) by exact Ho6.
    assert (P4 : stdout s4 `prefix_of` stdout s6)
      by (etrans; [apply (frame_stdout _ _ F5) | exact P5]).
    assert (P3 : stdout s3 `prefix_of` stdout s6)
      by (etrans; [apply (frame_stdout _ _ F4) | exact P4]).
    assert (P2 : stdout s2 `prefix_of` stdout s6)
      by (etrans; [apply (frame_stdout _ _ F3) | exact P3]).
    assert (F : same_counts (results s0) (results s5)).
    { repeat (eapply same_counts_trans; [|eapply frame_results; eassumption]).
      apply same_counts_refl. }
    assert (Hb : (if call_ok c4 then if call_ok c3 then if call_ok c2 then
                    if call_ok c1 then true else false else false else false
                  else false) = forallb call_ok [c1; c2; c3; c4])
      by (cbn; destruct (call_ok c1), (call_ok c2), (call_ok c3), (call_ok c4);
          reflexivity).
    rewrite Hb in Hr6 |- *.
    split.
    { rewrite Hc6, Hc5, Hc4, Hc3, Hc2, Hc1. rewrite <- !app_assoc.
      reflexivity. }
    split; [split; reflexivity|].
    split.
    { destruct (forallb call_ok [c1; c2; c3; c4]).
      - eapply (one_pass_intro s s0 s5 s6); eauto.
      - eapply (one_failure_intro _ _ _ s s0 s5 s6); eauto. }
    unfold call_ok at 1. cbn [call_outcome]. rewrite Hok.
    split; [|reflexivity].
    constructor; [eapply probe_logged_prefix; [exact P2 | exact W1]|].
    constructor; [eapply probe_logged_prefix; [exact P3 | exact W2]|].
    constructor; [eapply probe_logged_prefix; [exact P4 | exact W3]|].
    constructor; [eapply probe_logged_prefix; [exact P5 | exact W4]|].
    constructor.
  - apply wp_bind, wp_complete_test. intros s6 Hr6 _ _ _ [Hc6 _].
    apply wp_ret. eexists _, _.
    split; [rewrite Hc6; exact Hc1|]. split; [split; reflexivity|].
    split.
    + eapply (one_failure_intro _ _ _ s s0 s1 s6); eauto.
      apply (frame_results _ _ F1).
    + unfold call_ok. cbn [call_outcome]. rewrite Hok. split; reflexivity.
Qed.

(** X8. The performance check always passes, whatever its two cargo
    commands return.  It runs [cargo bench --no-run] and then
    [cargo test --release performance], and stores under the key
    [test_suite] the time between its two clock readings together with the
    [iterations] it was given. *)
Theorem performance_check_always_passes e iterations s :
  wp (test_performance e iterations)
     (fun b s' =>
        b = true /\ one_pass s s' /\
        (exists bench tests,
            calls s' = (calls s ++ [bench; tests])%list /\
            invoked bench ["bench"; "--no-run"] (winpath_dir e) /\
            invoked tests ["test"; "--release"; "performance"]
                    (winpath_dir e)) /\
        performance (results s')
        = <["test_suite" :=
              PerfSample (clock e (S (ticks s)) - clock e (ticks s))
                         iterations]> (performance (results s)))
     s.
Proof.
  unfold test_performance.
  apply wp_bind. unfold start_test, log_info, print, update_results.
  apply wp_bind, wp_modify, wp_modify.
  apply wp_bind. unfold wp at 1, time_time.
  apply wp_bind, logging_log_verbose. intros _ s1 [Lr1 _ _ Lc1 Lt1 _ _].
  cbn in Lr1, Lc1, Lt1.
  apply wp_bind, wp_run_cargo_command_exact. intros o1 s2 _ Hc2 Hr2 Ht2.
  cbv beta iota.
  apply wp_bind, logging_log_verbose. intros _ s3 [Lr3 _ _ Lc3 Lt3 _ _].
  apply wp_bind, wp_run_cargo_command_exact. intros o2 s4 _ Hc4 Hr4 Ht4.
  cbv beta iota.
  apply wp_bind. unfold wp at 1, time_time.
  apply wp_bind, wp_modify, wp_bind, wp_complete_test.
  intros s5 Hr5 _ _ _ [Hc5 _]. apply wp_ret.
  cbn in Hr5, Hc5.
  assert (Hr : results s4 = incr_total (results s)) by congruence.
  assert (Ht : ticks s4 = S (ticks s)) by congruence.
  unfold one_pass. rewrite Hr5, Hr, Ht. cbn.
  split; [reflexivity|]. split; [repeat split|]. split; [|reflexivity].
  eexists _, _.
  split; [rewrite Hc5, Hc4, Lc3, Hc2, Lc1, <- app_assoc; reflexivity|].
  split; split; reflexivity.
Qed.

(** The loop of the examples check: one [cargo run --example] per file,
    whatever each returns. *)
Lemma wp_examples_loop e (files : list path) Q s :
  (forall cs s',
      frame s s' ->
      calls s' = (calls s ++ cs)%list ->
      Forall2 (example_run (winpath_dir e)) cs files ->
      Q tt s') ->
  wp (for_each files (fun example_file =>
        let example_name := stem example_file in
        log_verbose ("Testing example: " ++ example_name);;
        '(success, output) ← run_cargo_command e
            ["run"; "--example"; example_name; "--"; "C:\test\path"] None;
        if negb success then
          log_warning ("Example " ++ example_name ++ " had issues: "
                       ++ str_take 100 output ++ "...")
        else ret tt)) Q s.
Proof.
  revert Q s. induction files as [|p files IH]; intros Q s H; cbn [for_each].
  - apply wp_ret. apply (H []); [apply frame_refl | | constructor].
    symmetry. apply app_nil_r.
  - apply wp_bind. cbv zeta.
    apply wp_bind, logging_log_verbose. intros _ s1 L1.
    apply wp_bind, wp_run_cargo_command. intros o s2 F2 Hc2. cbv beta iota.
    rewrite (log_calls _ _ L1) in Hc2.
    assert (F : frame s s2)
      by (eapply frame_trans; [apply log_step_frame, L1 | exact F2]).
    destruct (outcome_ok o); cbn [negb].
    + apply wp_ret, IH. intros cs s' F' Hc' Hcs. eapply (H (_ :: cs)).
      * eapply frame_trans; eassumption.
      * rewrite Hc', Hc2, <- app_assoc. reflexivity.
      * constructor; [split; reflexivity | exact Hcs].
    + unfold log_warning, print. apply wp_modify, IH.
      intros cs s' F' Hc' Hcs. eapply (H (_ :: cs)).
      * eapply frame_trans; [exact F|]. eapply frame_trans; [|exact F'].
        apply log_step_frame, log_step_add_stdout. reflexivity.
      * rewrite Hc'. cbn [calls add_stdout]. rewrite Hc2, <- app_assoc.
        reflexivity.
      * constructor; [split; reflexivity | exact Hcs].
Qed.

(** [run_cargo_command], tied to what the environment answers. *)
Lemma wp_run_cargo_command_spawn e args cwd Q s :
  (forall s',
      frame s s' ->
      calls s'
      = (calls s
         ++ [Call (cargo args) (cargo_cwd e cwd)
                  (fst (spawn e (length (calls s)) (cargo args)
                              (cargo_cwd e cwd) (fs s)))])%list ->
      fs s' = snd (spawn e (length (calls s)) (cargo args)
                         (cargo_cwd e cwd) (fs s)) ->
      Q (outcome_ok (fst (spawn e (length (calls s)) (cargo args)
                                (cargo_cwd e cwd) (fs s))),
         outcome_text (fst (spawn e (length (calls s)) (cargo args)
                                  (cargo_cwd e cwd) (fs s)))) s') ->
  wp (run_cargo_command e args cwd) Q s.
Proof.
  intros H. unfold wp, run_cargo_command, try_except, bind, subprocess_run.
  fold (cargo_cwd e cwd). unfold cargo in H.
  destruct (spawn e (length (calls s)) ("cargo" :: args) (cargo_cwd e cwd) (fs s))
    as [o f'].
  cbn [fst snd] in H.
  destruct o as [rc out err | x].
  - cbn. destruct (verbose s) eqn:Hv; cbn.
    + destruct (nonempty (out ++ err)); cbn.
      * unfold log_verbose, bind, gets, print, modify, ret. cbn. rewrite Hv.
        apply H; solve [solve_frame | reflexivity].
      * apply H; solve [solve_frame | reflexivity].
    + apply H; solve [solve_frame | reflexivity].
  - cbn. destruct x as [c msg]. destruct c; cbn; apply H;
      solve [solve_frame | reflexivity].
Qed.

(** X9. With an examples directory, the examples check runs
    [cargo build --examples] and fails exactly when that fails, running
    nothing else.  When the build succeeds it runs
    [cargo run --example <stem> -- C:\test\path] once for every [*.rs] file
    of the examples directory, as the build left it, and passes whatever
    those runs return. *)
Theorem examples_pass_when_built e s :
  path_exists (fs s) (child (winpath_dir e) "examples") = true ->
  wp (test_examples e)
     (fun b s' =>
        let built := spawn e (length (calls s)) (cargo ["build"; "--examples"])
                           (winpath_dir e) (fs s) in
        exists runs,
          calls s'
          = (calls s
             ++ Call (cargo ["build"; "--examples"]) (winpath_dir e)
                     (fst built) :: runs)%list /\
          b = outcome_ok (fst built) /\
          if b then
            one_pass s s' /\
            Forall2 (example_run (winpath_dir e)) runs
                    (glob_rs (snd built) (child (winpath_dir e) "examples"))
          else runs = [] /\ one_failure "Example Programs" s s')
     s.
Proof.
  intros Hp. unfold test_examples.
  apply wp_bind, wp_start_test. intros s0 Hr0 _ _ _ Hc0 Hf0.
  apply wp_bind. unfold exists_. apply wp_gets. rewrite Hf0, Hp. cbn [negb].
  apply wp_bind, logging_log_verbose. intros _ s1 L1.
  apply wp_bind, wp_run_cargo_command_spawn.
  rewrite (log_calls _ _ L1), (log_fs _ _ L1), Hc0, Hf0. cbn [cargo_cwd].
  intros s2 F2 Hc2 Hf2. cbv beta iota zeta.
  assert (C2 : same_counts (results s0) (results s2))
    by (eapply same_counts_trans;
        [apply (frame_results _ _ (log_step_frame _ _ L1))
        | apply (frame_results _ _ F2)]).
  destruct (outcome_ok
              (fst (spawn e (length (calls s)) (cargo ["build"; "--examples"])
                          (winpath_dir e) (fs s)))) eqn:Hok; cbn [negb].
  - apply wp_bind, wp_gets, wp_bind, wp_examples_loop.
    intros cs s3 F3 Hc3 Hcs.
    apply wp_bind, wp_complete_test. intros s4 Hr4 _ _ _ [Hc4 _].
    apply wp_ret. exists cs.
    split; [rewrite Hc4, Hc3, Hc2, <- app_assoc; reflexivity|].
    split; [reflexivity|]. split.
    + eapply (one_pass_intro s s0 s3 s4); eauto.
      eapply same_counts_trans; [exact C2 | apply (frame_results _ _ F3)].
    + rewrite <- Hf2. exact Hcs.
  - apply wp_bind, wp_complete_test. intros s4 Hr4 _ _ _ [Hc4 _].
    apply wp_ret. exists [].
    split; [rewrite Hc4; exact Hc2|].
    split; [reflexivity|]. split; [reflexivity|].
    eapply (one_failure_intro _ _ _ s s0 s2 s4); eauto.
Qed.

Lemma examples_pass_when_built_witness :
  path_exists (fs (demo_init [] demo_fs_examples))
              (child (winpath_dir (demo_env [])) "examples") = true /\
  wp (test_examples (demo_env []))
     (fun b s' =>
        let built := spawn (demo_env [])
                           (length (calls (demo_init [] demo_fs_examples)))
                           (cargo ["build"; "--examples"])
                           (winpath_dir (demo_env []))
                           (fs (demo_init [] demo_fs_examples)) in
        exists runs,
          calls s'
          = (calls (demo_init [] demo_fs_examples)
             ++ Call (cargo ["build"; "--examples"])
                     (winpath_dir (demo_env [])) (fst built) :: runs)%list /\
          b = outcome_ok (fst built) /\
          if b then
            one_pass (demo_init [] demo_fs_examples) s' /\
            Forall2 (example_run (winpath_dir (demo_env []))) runs
                    (glob_rs (snd built)
                             (child (winpath_dir (demo_env [])) "examples"))
          else runs = [] /\
               one_failure "Example Programs"
                           (demo_init [] demo_fs_examples) s')
     (demo_init [] demo_fs_examples).
Proof.
  split; [vm_compute; reflexivity|].
  exact (examples_pass_when_built (demo_env [])
                                  (demo_init [] demo_fs_examples) eq_refl).
Defined.

(** X10. Every [run_cargo_command] starts exactly one process: [cargo]
    followed by the arguments, in the directory given or, by default, in
    the library root.  It leaves the record and the clock alone, and what
    it returns is read off that process's outcome. *)
Theorem run_cargo_command_one_process e args cwd s :
  wp (run_cargo_command e args cwd)
     (fun r s' =>
        exists o,
          calls s'
          = (calls s
             ++ [Call ("cargo" :: args)
                      (match cwd with
                       | None => winpath_dir e
                       | Some d => d
                       end) o])%list /\
          r = (outcome_ok o, outcome_text o) /\
          results s' = results s /\ ticks s' = ticks s /\
          verbose s' = verbose s)
     s.
Proof.
  apply wp_run_cargo_command_exact. intros o s' F Hc Hr Ht.
  exists o. split; [exact Hc|]. split; [reflexivity|].
  split; [exact Hr|]. split; [exact Ht|]. apply (frame_verbose _ _ F).
Qed.

(** X11. [__init__] touches the filesystem at most at the results
    directory.  If that directory is already there it changes nothing and
    returns; if the name is free and the project root is a directory it
    creates it; if it raises, the filesystem is as before. *)
Theorem init_filesystem_footprint e v s0 :
  exists r s1,
    init e v s0 = (r, s1) /\
    (forall q, q <> test_results_dir e -> fs s1 !! q = fs s0 !! q) /\
    (is_dir (fs s0) (test_results_dir e) = true ->
     r = inr tt /\ fs s1 = fs s0) /\
    (path_exists (fs s0) (test_results_dir e) = false ->
     is_dir (fs s0) (project_root e) = true ->
     r = inr tt /\ fs s1 = <[test_results_dir e := Dir]> (fs s0)) /\
    (forall x, r = inl x -> fs s1 = fs s0).
Proof.
  unfold init. rewrite bind_time_time, bind_modify. unfold mkdir_exist_ok.
  cbn [fs tick]. unfold test_results_dir at 4. rewrite parent_child.
  assert (Hnd : is_dir (fs s0) (test_results_dir e) = true ->
                path_exists (fs s0) (test_results_dir e) = true).
  { unfold is_dir, path_exists.
    destruct (test_results_dir e) as [|d ds]; [reflexivity|].
    intros H. repeat case_match; first [reflexivity | discriminate]. }
  destruct (is_dir (fs s0) (test_results_dir e)) eqn:Hd.
  { eexists _, _. split; [reflexivity|]. cbn.
    split; [reflexivity|]. split; [auto|]. split; [|auto].
    intros Hp. rewrite Hnd in Hp by reflexivity. discriminate Hp. }
  destruct (path_exists (fs s0) (test_results_dir e)).
  { eexists _, _. split; [reflexivity|]. cbn.
    split; [reflexivity|]. split; [discriminate|]. split; [discriminate|auto]. }
  destruct (is_dir (fs s0) (project_root e)).
  - eexists _, _. split; [reflexivity|]. cbn.
    split; [intros q Hq; apply lookup_insert_ne; congruence|].
    split; [discriminate|]. split; [auto|]. intros x Hx. discriminate Hx.
  - eexists _, _. split; [reflexivity|]. cbn.
    split; [reflexivity|]. split; [discriminate|]. split; [|auto].
    intros _ Hx. discriminate Hx.
Qed.

Lemma init_filesystem_footprint_witness :
  path_exists (fs (process_start demo_fs)) (test_results_dir (demo_env []))
  = false /\
  is_dir (fs (process_start demo_fs)) (project_root (demo_env [])) = true /\
  exists r s1,
    init (demo_env []) false (process_start demo_fs) = (r, s1) /\
    r = inr tt.
Proof.
  split; [reflexivity|]. split; [reflexivity|].
  destruct (init_filesystem_footprint (demo_env []) false
                                      (process_start demo_fs))
    as (r & s1 & Hi & _ & _ & Hnew & _).
  exists r, s1. split; [exact Hi|].
  exact (proj1 (Hnew eq_refl eq_refl)).
Defined.

(** X12. With the library root present, the suite goes through its checks
    in one fixed order whatever their outcomes: a failing or timed-out
    check never stops the ones after it, and the executable-path check
    always comes last. *)
Theorem suite_order_is_fixed e performance git_bash full_suite iterations s :
  path_exists (fs s) (winpath_dir e) = true ->
  wp (run_validation_suite e performance git_bash full_suite iterations)
     (fun _ s' =>
        started s'
        = (started s
           ++ ["Basic Compilation"; "Unit Tests"; "Integration Tests";
               "Example Programs"; "Documentation Tests";
               "Path Pattern Validation"]
           ++ (if git_bash || full_suite
               then ["Git Bash Path Handling"] else [])
           ++ (if performance || full_suite
               then ["Performance Tests"] else [])
           ++ ["Executable Path Reporting"])%list)
     s.
Proof.
  intros Hroot. apply run_validation_suite_done; [exact Hroot|].
  intros r s' Hd. rewrite (done_started _ _ _ Hd), suite_checks_names.
  reflexivity.
Qed.

Lemma suite_order_is_fixed_witness :
  path_exists (fs (demo_init [] demo_fs))
              (winpath_dir demo_basic_tests_fail) = true /\
  wp (run_validation_suite demo_basic_tests_fail false false true 1000)
     (fun _ s' =>
        started s'
        = (started (demo_init [] demo_fs)
           ++ ["Basic Compilation"; "Unit Tests"; "Integration Tests";
               "Example Programs"; "Documentation Tests";
               "Path Pattern Validation"]
           ++ (if false || true then ["Git Bash Path Handling"] else [])
           ++ (if false || true then ["Performance Tests"] else [])
           ++ ["Executable Path Reporting"])%list)
     (demo_init [] demo_fs).
Proof.
  split; [reflexivity|].
  exact (suite_order_is_fixed demo_basic_tests_fail false false true 1000
                              (demo_init [] demo_fs) eq_refl).
Defined.

(** ** Whom the errors name *)

Lemma errors_name_refl s : errors_name [] s s.
Proof. exists []. split; [symmetry; apply app_nil_r | reflexivity]. Qed.

Lemma errors_name_app n1 n2 s1 s2 s3 :
  errors_name n1 s1 s2 -> errors_name n2 s2 s3 ->
  errors_name (n1 ++ n2) s1 s3.
Proof.
  intros (new1 & H1 & S1) (new2 & H2 & S2). exists (new1 ++ new2)%list.
  split; [rewrite H2, H1; symmetry; apply app_assoc|].
  rewrite map_app. apply sublist_app; assumption.
Qed.

Lemma checked_errors_name name s ok s' :
  checked name s ok s' -> errors_name [name] s s'.
Proof.
  intros [(_ & _ & Hr) _ _ _ _]. cbn in Hr. destruct ok.
  - destruct Hr as (_ & _ & He). exists []. split.
    + rewrite He. symmetry. apply app_nil_r.
    + apply sublist_nil_l.
  - destruct Hr as (_ & _ & msg & t & He).
    exists [ErrorEntry name msg t]. split; [exact He | reflexivity].
Qed.

Lemma run_checks_errors_name (cs : list (string * M bool)) success s :
  Forall (fun c => check (fst c) (snd c)) cs ->
  wp (run_checks (List.map snd cs) success)
     (fun _ s' => errors_name (List.map fst cs) s s') s.
Proof.
  intros Hcs. revert success s.
  induction Hcs as [|[name m] cs Hm Hcs IH]; intros success s; cbn.
  - apply errors_name_refl.
  - apply wp_bind, Hm. intros b s1 H1. eapply wp_mono; [apply IH|].
    cbn beta. intros _ s2 H2.
    apply (errors_name_app [name] _ s s1 s2); [|exact H2].
    eapply checked_errors_name, H1.
Qed.

(** X13. The suite only ever appends to the error list, and what it
    appends names checks of this run, in the order they ran: no entry is
    dropped or rewritten, and none names a check that was not started. *)
Theorem suite_errors_name_started_checks
        e performance git_bash full_suite iterations s :
  wp (run_validation_suite e performance git_bash full_suite iterations)
     (fun _ s' =>
        exists new,
          errors (results s') = (errors (results s) ++ new)%list /\
          exists ran,
            started s' = (started s ++ ran)%list /\
            List.map err_test new `sublist_of` ran)
     s.
Proof.
  destruct (path_exists (fs s) (winpath_dir e)) eqn:Hroot.
  - eapply wp_mono.
    + apply wp_conj.
      * unfold wp. rewrite run_validation_suite_checks by exact Hroot.
        apply run_checks_errors_name, suite_checks_check.
      * apply run_validation_suite_done; [exact Hroot|].
        intros r s' Hd. exact Hd.
    + cbn beta. intros _ s' [(new & He & Hsub) Hd].
      exists new. split; [exact He|]. eexists.
      split; [apply (done_started _ _ _ Hd) | exact Hsub].
  - unfold wp. rewrite run_validation_suite_missing by exact Hroot.
    exists []. split; [symmetry; apply app_nil_r|]. exists [].
    split; [|reflexivity].
    rewrite app_nil_r.
    apply (log_started s).
    eapply log_step_trans; [apply log_step_suite_header|].
    apply log_step_add_stdout. reflexivity.
Qed.

(** ** Output without [--verbose] *)

Lemma hushed_refl s : hushed s s.
Proof.
  split; [reflexivity|]. intros _. exists []. split; [|constructor].
  symmetry. apply app_nil_r.
Qed.

Lemma hushed_trans s1 s2 s3 : hushed s1 s2 -> hushed s2 s3 -> hushed s1 s3.
Proof.
  intros [Hv1 H1] [Hv2 H2]. split; [congruence|]. intros Hv.
  destruct (H1 Hv) as (x1 & E1 & F1).
  destruct H2 as (x2 & E2 & F2); [congruence|].
  exists (x1 ++ x2)%list. split.
  - rewrite E2, E1. symmetry. apply app_assoc.
  - apply Forall_app. split; assumption.
Qed.

Lemma hushed_print l msg : l <> VERBOSE -> preserves hushed (print l msg).
Proof.
  intros Hl s Q H. apply wp_modify, H. split; [reflexivity|].
  intros _. exists [(l, msg)]. split; [reflexivity|].
  constructor; [exact Hl | constructor].
Qed.

Lemma hushed_log_verbose msg : preserves hushed (log_verbose msg).
Proof.
  intros s Q H. unfold log_verbose. apply wp_bind, wp_gets.
  destruct (verbose s) eqn:Hv.
  - apply wp_modify, H. split; [reflexivity|]. congruence.
  - apply wp_ret, H, hushed_refl.
Qed.

Lemma hushed_update_results f : preserves hushed (update_results f).
Proof.
  intros s Q H. apply wp_modify, H. split; [reflexivity|].
  intros _. exists []. split; [|constructor]. symmetry. apply app_nil_r.
Qed.

Lemma hushed_time_time e : preserves hushed (time_time e).
Proof.
  intros s Q H. apply H. split; [reflexivity|].
  intros _. exists []. split; [|constructor]. symmetry. apply app_nil_r.
Qed.

Lemma hushed_run_cargo_command e args cwd :
  preserves hushed (run_cargo_command e args cwd).
Proof.
  intros s Q H. unfold wp, run_cargo_command, try_except, bind, subprocess_run.
  destruct (spawn e (length (calls s)) ("cargo" :: args)
                  match cwd with
                  | Some d => d
                  | None => winpath_dir e
                  end (fs s)) as [o f'].
  destruct o as [rc out err | x].
  - cbn. destruct (verbose s) eqn:Hv; cbn.
    + destruct (nonempty (out ++ err)); cbn.
      * unfold log_verbose, bind, gets, print, modify, ret. cbn. rewrite Hv.
        apply H. split; [reflexivity|]. cbn. congruence.
      * apply H. split; [reflexivity|]. cbn. congruence.
    + apply H. split; [reflexivity|]. intros _. exists [].
      split; [|constructor]. symmetry. apply app_nil_r.
  - cbn. destruct x as [c msg]. destruct c; cbn; apply H;
      (split; [reflexivity|]); intros _; exists [];
      (split; [|constructor]); symmetry; apply app_nil_r.
Qed.

(** One tactic walks a method, step by step. *)
Ltac hush_step :=
  first
    [ apply (preserves_ret hushed hushed_refl)
    | apply (preserves_gets hushed hushed_refl)
    | apply hushed_log_verbose
    | apply hushed_update_results
    | apply hushed_time_time
    | apply hushed_run_cargo_command
    | apply hushed_print; discriminate ].

Ltac hush :=
  repeat first
    [ hush_step
    | apply (preserves_bind hushed hushed_trans); [|intros]
    | apply (preserves_for_each hushed hushed_refl hushed_trans); intros
    | apply (preserves_for_acc hushed hushed_refl hushed_trans); intros
    | match goal with
      | |- preserves hushed (let '(_, _) := ?p in _) => destruct p
      | |- preserves hushed (if negb ?b then _ else _) =>
          is_var b; destruct b; cbn [negb]
      | |- preserves hushed (if ?b then _ else _) => is_var b; destruct b
      end ].

Ltac hush_method :=
  unfold start_test, complete_test, log_info, log_success, log_warning,
    log_error, exists_; hush.

Lemma hushed_suite e performance git_bash full_suite iterations :
  preserves hushed
    (run_validation_suite e performance git_bash full_suite iterations).
Proof.
  assert (H1 : preserves hushed (test_basic_compilation e))
    by (unfold test_basic_compilation; hush_method).
  assert (H2 : preserves hushed (test_unit_tests e))
    by (unfold test_unit_tests; hush_method).
  assert (H3 : preserves hushed (test_integration_tests e))
    by (unfold test_integration_tests; hush_method).
  assert (H4 : preserves hushed (test_examples e))
    by (unfold test_examples; hush_method).
  assert (H5 : preserves hushed (test_documentation e))
    by (unfold test_documentation; hush_method).
  assert (H6 : preserves hushed (validate_path_patterns e))
    by (unfold validate_path_patterns; hush_method).
  assert (H7 : preserves hushed (test_git_bash_specific e))
    by (unfold test_git_bash_specific; hush_method).
  assert (H8 : preserves hushed (test_performance e iterations))
    by (unfold test_performance; hush_method).
  assert (H9 : preserves hushed (test_executable_paths e))
    by (unfold test_executable_paths; hush_method).
  unfold run_validation_suite, log_info, log_error, exists_.
  repeat first
    [ assumption
    | hush_step
    | apply (preserves_bind hushed hushed_trans); [|intros]
    | match goal with
      | |- preserves hushed (if negb ?b then _ else _) =>
          is_var b; destruct b; cbn [negb]
      | |- preserves hushed (if ?b then _ else _) => destruct b
      end ].
Qed.

(** X14. Without [--verbose] the suite never prints a line of
    [log_verbose]: every line it prints comes from [log_info],
    [log_success], [log_warning] or [log_error].  (Command output can still
    appear, inside warnings and error lines.) *)
Theorem no_verbose_lines_unless_asked
        e performance git_bash full_suite iterations s :
  verbose s = false ->
  wp (run_validation_suite e performance git_bash full_suite iterations)
     (fun _ s' =>
        exists printed,
          stdout s' = (stdout s ++ printed)%list /\
          Forall (fun l => fst l <> VERBOSE) printed)
     s.
Proof.
  intros Hv. apply hushed_suite. intros _ s' [_ H]. exact (H Hv).
Qed.

Lemma no_verbose_lines_unless_asked_witness :
  verbose (demo_init [] demo_fs) = false /\
  wp (run_validation_suite (demo_env []) true true true 1000)
     (fun _ s' =>
        exists printed,
          stdout s' = (stdout (demo_init [] demo_fs) ++ printed)%list /\
          Forall (fun l => fst l <> VERBOSE) printed)
     (demo_init [] demo_fs).
Proof.
  split; [reflexivity|].
  exact (no_verbose_lines_unless_asked (demo_env []) true true true 1000
                                       (demo_init [] demo_fs) eq_refl).
Defined.
